(** * Building simulator: BuildingState physics, equipment profiles, runtime

    A shallow embedding of [src/simulators/building/simulator.py].

    Numbers.  The simulator computes with Python floats.  They are idealised
    here as real numbers ([R]): rounding, overflow, infinities and NaN are not
    modelled.  [math.sin] is [sin], [math.pi] is [PI], [x ** 3] is [x ^ 3].

    Effects.  Every method runs in the monad [M]: it threads the simulator
    object, the random generator, the wall clock and the log, and it may raise
    a Python exception.  A raised exception keeps the mutations made so far
    (Python objects are mutated in place, nothing is rolled back).

    Environment.  [random.random()] and [datetime.now()] read two oracles that
    are part of the machine state: the next value is taken from the head of a
    stream, represented as a function from [nat]. *)

From Stdlib Require Import Reals Lra Lia ZArith String Ascii Bool DecimalString List.
Import ListNotations.
Open Scope R_scope.

(** ** Exceptions and results *)

Inductive exn : Type :=
| ValueError (msg : string)
| IndexError
| ZeroDivisionError
| TypeError
| AttributeError.

Inductive result (A : Type) : Type :=
| Ok (a : A)
| Raise (e : exn).
Arguments Ok {A} a.
Arguments Raise {A} e.

(** ** Python built-ins used by the simulator *)

(** [l[i]] with an [int] index: negative indices count from the end. *)
Definition py_index (len : nat) (i : Z) : option nat :=
  if (0 <=? i)%Z then
    if (i <? Z.of_nat len)%Z then Some (Z.to_nat i) else None
  else
    if (- Z.of_nat len <=? i)%Z then Some (Z.to_nat (Z.of_nat len + i)) else None.

Definition list_getitem {A : Type} (l : list A) (i : Z) : option A :=
  match py_index (length l) i with
  | Some k => nth_error l k
  | None => None
  end.

Fixpoint list_update {A : Type} (l : list A) (k : nat) (v : A) : list A :=
  match l, k with
  | [], _ => []
  | _ :: t, O => v :: t
  | h :: t, S k' => h :: list_update t k' v
  end.

Definition list_setitem {A : Type} (l : list A) (i : Z) (v : A) : option (list A) :=
  match py_index (length l) i with
  | Some k => Some (list_update l k v)
  | None => None
  end.

(** [sum(l)]: starts from 0 and adds from the left. *)
Definition py_sum (l : list R) : R := fold_left Rplus l 0.

(** [range(n)]. *)
Definition range (n : nat) : list Z := map Z.of_nat (seq 0 n).

(** [x < y] on floats, as a boolean. *)
Definition Rltb (x y : R) : bool := if Rlt_dec x y then true else false.

(** [str(n)] for an [int]. *)
Definition str_of_int (n : Z) : string := NilZero.string_of_int (Z.to_int n).

(** [s[3:]] and [s.startswith(p)]. *)
Definition str_from (n : nat) (s : string) : string :=
  String.substring n (String.length s - n) s.
Definition startswith (p s : string) : bool := String.prefix p s.

(** [int(s)] for a [str] in base 10.  White space is stripped on both sides,
    one sign is allowed, and decimal digits may be separated by single
    underscores.  Only ASCII is modelled: a character outside ASCII makes the
    literal invalid here (CPython also accepts other Unicode decimal digits
    and spaces).  The interpreter's limit on the number of digits of a
    literal (4300 by default) is not modelled: a longer literal is converted
    here and refused there. *)
Definition is_space (c : ascii) : bool :=
  let n := nat_of_ascii c in
  (((9 <=? n) && (n <=? 13)) || ((28 <=? n) && (n <=? 32)))%nat.

Definition digit_value (c : ascii) : option Z :=
  let n := nat_of_ascii c in
  if ((48 <=? n) && (n <=? 57))%nat then Some (Z.of_nat (n - 48)) else None.

Fixpoint lstrip (s : list ascii) : list ascii :=
  match s with
  | c :: t => if is_space c then lstrip t else s
  | [] => []
  end.

Definition strip (s : list ascii) : list ascii := rev (lstrip (rev (lstrip s))).

(** [after_digit] tells whether the previous character was a digit: an
    underscore is legal only between two digits. *)
Fixpoint int_digits (s : list ascii) (acc : Z) (after_digit : bool) : option Z :=
  match s with
  | [] => if after_digit then Some acc else None
  | c :: t =>
      match digit_value c with
      | Some d => int_digits t (10 * acc + d)%Z true
      | None =>
          if (Ascii.eqb c "_" && after_digit)%bool then
            match t with
            | c' :: _ => match digit_value c' with
                         | Some _ => int_digits t acc false
                         | None => None
                         end
            | [] => None
            end
          else None
      end
  end.

Definition int_of_str (s : string) : option Z :=
  match strip (list_ascii_of_string s) with
  | c :: t =>
      if Ascii.eqb c "-" then option_map Z.opp (int_digits t 0%Z false)
      else if Ascii.eqb c "+" then int_digits t 0%Z false
      else int_digits (c :: t) 0%Z false
  | [] => None
  end.


(** ** The wall clock *)

(** What the simulator reads of [datetime.now()]: [weekday()] (Monday is 0)
    and [hour]. *)
Record datetime : Type := { weekday : Z; hour : Z }.

Definition INTERVAL : R := 5.

(** ** BuildingState *)

Record BuildingState : Type := {
  (* Time and occupancy *)
  outdoor_temp : R;
  is_occupied : bool;
  (* Central plant *)
  chilled_water_supply_temp : R;
  chilled_water_return_temp : R;
  hot_water_supply_temp : R;
  hot_water_return_temp : R;
  (* AHU state *)
  ahu_supply_air_temp : R;
  ahu_return_air_temp : R;
  ahu_mixed_air_temp : R;
  ahu_supply_air_flow : R;
  ahu_fan_speed : R;
  ahu_cooling_valve : R;
  ahu_heating_valve : R;
  ahu_supply_air_setpoint : R;
  (* VAV states (6 zones) *)
  vav_zone_temps : list R;
  vav_zone_setpoints : list R;
  vav_damper_positions : list R;
  vav_airflows : list R;
  vav_reheat_valves : list R;
  (* Power consumption *)
  total_power : R;
  total_energy : R
}.

(** [BuildingState.__init__]. *)
Definition BuildingState_init : BuildingState :=
  {| outdoor_temp := 85;
     is_occupied := true;
     chilled_water_supply_temp := 44;
     chilled_water_return_temp := 54;
     hot_water_supply_temp := 180;
     hot_water_return_temp := 160;
     ahu_supply_air_temp := 55;
     ahu_return_air_temp := 72;
     ahu_mixed_air_temp := 65;
     ahu_supply_air_flow := 12000;
     ahu_fan_speed := 75;
     ahu_cooling_valve := 50;
     ahu_heating_valve := 0;
     ahu_supply_air_setpoint := 55;
     vav_zone_temps := repeat 72 6;
     vav_zone_setpoints := repeat 72 6;
     vav_damper_positions := repeat 50 6;
     vav_airflows := repeat 2000 6;
     vav_reheat_valves := repeat 0 6;
     total_power := 0;
     total_energy := 0 |}.

(** Attribute assignment [self.x = v], one function per assigned attribute. *)
Definition set_outdoor_temp (v : R) (self : BuildingState) : BuildingState :=
  {| outdoor_temp := v; is_occupied := is_occupied self;
     chilled_water_supply_temp := chilled_water_supply_temp self;
     chilled_water_return_temp := chilled_water_return_temp self;
     hot_water_supply_temp := hot_water_supply_temp self;
     hot_water_return_temp := hot_water_return_temp self;
     ahu_supply_air_temp := ahu_supply_air_temp self;
     ahu_return_air_temp := ahu_return_air_temp self;
     ahu_mixed_air_temp := ahu_mixed_air_temp self;
     ahu_supply_air_flow := ahu_supply_air_flow self; ahu_fan_speed := ahu_fan_speed self;
     ahu_cooling_valve := ahu_cooling_valve self;
     ahu_heating_valve := ahu_heating_valve self;
     ahu_supply_air_setpoint := ahu_supply_air_setpoint self;
     vav_zone_temps := vav_zone_temps self; vav_zone_setpoints := vav_zone_setpoints self;
     vav_damper_positions := vav_damper_positions self; vav_airflows := vav_airflows self;
     vav_reheat_valves := vav_reheat_valves self; total_power := total_power self;
     total_energy := total_energy self |}.

Definition set_is_occupied (v : bool) (self : BuildingState) : BuildingState :=
  {| outdoor_temp := outdoor_temp self; is_occupied := v;
     chilled_water_supply_temp := chilled_water_supply_temp self;
     chilled_water_return_temp := chilled_water_return_temp self;
     hot_water_supply_temp := hot_water_supply_temp self;
     hot_water_return_temp := hot_water_return_temp self;
     ahu_supply_air_temp := ahu_supply_air_temp self;
     ahu_return_air_temp := ahu_return_air_temp self;
     ahu_mixed_air_temp := ahu_mixed_air_temp self;
     ahu_supply_air_flow := ahu_supply_air_flow self; ahu_fan_speed := ahu_fan_speed self;
     ahu_cooling_valve := ahu_cooling_valve self;
     ahu_heating_valve := ahu_heating_valve self;
     ahu_supply_air_setpoint := ahu_supply_air_setpoint self;
     vav_zone_temps := vav_zone_temps self; vav_zone_setpoints := vav_zone_setpoints self;
     vav_damper_positions := vav_damper_positions self; vav_airflows := vav_airflows self;
     vav_reheat_valves := vav_reheat_valves self; total_power := total_power self;
     total_energy := total_energy self |}.

Definition set_chilled_water_supply_temp (v : R) (self : BuildingState) : BuildingState :=
  {| outdoor_temp := outdoor_temp self; is_occupied := is_occupied self;
     chilled_water_supply_temp := v;
     chilled_water_return_temp := chilled_water_return_temp self;
     hot_water_supply_temp := hot_water_supply_temp self;
     hot_water_return_temp := hot_water_return_temp self;
     ahu_supply_air_temp := ahu_supply_air_temp self;
     ahu_return_air_temp := ahu_return_air_temp self;
     ahu_mixed_air_temp := ahu_mixed_air_temp self;
     ahu_supply_air_flow := ahu_supply_air_flow self; ahu_fan_speed := ahu_fan_speed self;
     ahu_cooling_valve := ahu_cooling_valve self;
     ahu_heating_valve := ahu_heating_valve self;
     ahu_supply_air_setpoint := ahu_supply_air_setpoint self;
     vav_zone_temps := vav_zone_temps self; vav_zone_setpoints := vav_zone_setpoints self;
     vav_damper_positions := vav_damper_positions self; vav_airflows := vav_airflows self;
     vav_reheat_valves := vav_reheat_valves self; total_power := total_power self;
     total_energy := total_energy self |}.

Definition set_chilled_water_return_temp (v : R) (self : BuildingState) : BuildingState :=
  {| outdoor_temp := outdoor_temp self; is_occupied := is_occupied self;
     chilled_water_supply_temp := chilled_water_supply_temp self;
     chilled_water_return_temp := v; hot_water_supply_temp := hot_water_supply_temp self;
     hot_water_return_temp := hot_water_return_temp self;
     ahu_supply_air_temp := ahu_supply_air_temp self;
     ahu_return_air_temp := ahu_return_air_temp self;
     ahu_mixed_air_temp := ahu_mixed_air_temp self;
     ahu_supply_air_flow := ahu_supply_air_flow self; ahu_fan_speed := ahu_fan_speed self;
     ahu_cooling_valve := ahu_cooling_valve self;
     ahu_heating_valve := ahu_heating_valve self;
     ahu_supply_air_setpoint := ahu_supply_air_setpoint self;
     vav_zone_temps := vav_zone_temps self; vav_zone_setpoints := vav_zone_setpoints self;
     vav_damper_positions := vav_damper_positions self; vav_airflows := vav_airflows self;
     vav_reheat_valves := vav_reheat_valves self; total_power := total_power self;
     total_energy := total_energy self |}.

Definition set_ahu_supply_air_temp (v : R) (self : BuildingState) : BuildingState :=
  {| outdoor_temp := outdoor_temp self; is_occupied := is_occupied self;
     chilled_water_supply_temp := chilled_water_supply_temp self;
     chilled_water_return_temp := chilled_water_return_temp self;
     hot_water_supply_temp := hot_water_supply_temp self;
     hot_water_return_temp := hot_water_return_temp self; ahu_supply_air_temp := v;
     ahu_return_air_temp := ahu_return_air_temp self;
     ahu_mixed_air_temp := ahu_mixed_air_temp self;
     ahu_supply_air_flow := ahu_supply_air_flow self; ahu_fan_speed := ahu_fan_speed self;
     ahu_cooling_valve := ahu_cooling_valve self;
     ahu_heating_valve := ahu_heating_valve self;
     ahu_supply_air_setpoint := ahu_supply_air_setpoint self;
     vav_zone_temps := vav_zone_temps self; vav_zone_setpoints := vav_zone_setpoints self;
     vav_damper_positions := vav_damper_positions self; vav_airflows := vav_airflows self;
     vav_reheat_valves := vav_reheat_valves self; total_power := total_power self;
     total_energy := total_energy self |}.

Definition set_ahu_return_air_temp (v : R) (self : BuildingState) : BuildingState :=
  {| outdoor_temp := outdoor_temp self; is_occupied := is_occupied self;
     chilled_water_supply_temp := chilled_water_supply_temp self;
     chilled_water_return_temp := chilled_water_return_temp self;
     hot_water_supply_temp := hot_water_supply_temp self;
     hot_water_return_temp := hot_water_return_temp self;
     ahu_supply_air_temp := ahu_supply_air_temp self; ahu_return_air_temp := v;
     ahu_mixed_air_temp := ahu_mixed_air_temp self;
     ahu_supply_air_flow := ahu_supply_air_flow self; ahu_fan_speed := ahu_fan_speed self;
     ahu_cooling_valve := ahu_cooling_valve self;
     ahu_heating_valve := ahu_heating_valve self;
     ahu_supply_air_setpoint := ahu_supply_air_setpoint self;
     vav_zone_temps := vav_zone_temps self; vav_zone_setpoints := vav_zone_setpoints self;
     vav_damper_positions := vav_damper_positions self; vav_airflows := vav_airflows self;
     vav_reheat_valves := vav_reheat_valves self; total_power := total_power self;
     total_energy := total_energy self |}.

Definition set_ahu_mixed_air_temp (v : R) (self : BuildingState) : BuildingState :=
  {| outdoor_temp := outdoor_temp self; is_occupied := is_occupied self;
     chilled_water_supply_temp := chilled_water_supply_temp self;
     chilled_water_return_temp := chilled_water_return_temp self;
     hot_water_supply_temp := hot_water_supply_temp self;
     hot_water_return_temp := hot_water_return_temp self;
     ahu_supply_air_temp := ahu_supply_air_temp self;
     ahu_return_air_temp := ahu_return_air_temp self; ahu_mixed_air_temp := v;
     ahu_supply_air_flow := ahu_supply_air_flow self; ahu_fan_speed := ahu_fan_speed self;
     ahu_cooling_valve := ahu_cooling_valve self;
     ahu_heating_valve := ahu_heating_valve self;
     ahu_supply_air_setpoint := ahu_supply_air_setpoint self;
     vav_zone_temps := vav_zone_temps self; vav_zone_setpoints := vav_zone_setpoints self;
     vav_damper_positions := vav_damper_positions self; vav_airflows := vav_airflows self;
     vav_reheat_valves := vav_reheat_valves self; total_power := total_power self;
     total_energy := total_energy self |}.

Definition set_ahu_supply_air_flow (v : R) (self : BuildingState) : BuildingState :=
  {| outdoor_temp := outdoor_temp self; is_occupied := is_occupied self;
     chilled_water_supply_temp := chilled_water_supply_temp self;
     chilled_water_return_temp := chilled_water_return_temp self;
     hot_water_supply_temp := hot_water_supply_temp self;
     hot_water_return_temp := hot_water_return_temp self;
     ahu_supply_air_temp := ahu_supply_air_temp self;
     ahu_return_air_temp := ahu_return_air_temp self;
     ahu_mixed_air_temp := ahu_mixed_air_temp self; ahu_supply_air_flow := v;
     ahu_fan_speed := ahu_fan_speed self; ahu_cooling_valve := ahu_cooling_valve self;
     ahu_heating_valve := ahu_heating_valve self;
     ahu_supply_air_setpoint := ahu_supply_air_setpoint self;
     vav_zone_temps := vav_zone_temps self; vav_zone_setpoints := vav_zone_setpoints self;
     vav_damper_positions := vav_damper_positions self; vav_airflows := vav_airflows self;
     vav_reheat_valves := vav_reheat_valves self; total_power := total_power self;
     total_energy := total_energy self |}.

Definition set_ahu_fan_speed (v : R) (self : BuildingState) : BuildingState :=
  {| outdoor_temp := outdoor_temp self; is_occupied := is_occupied self;
     chilled_water_supply_temp := chilled_water_supply_temp self;
     chilled_water_return_temp := chilled_water_return_temp self;
     hot_water_supply_temp := hot_water_supply_temp self;
     hot_water_return_temp := hot_water_return_temp self;
     ahu_supply_air_temp := ahu_supply_air_temp self;
     ahu_return_air_temp := ahu_return_air_temp self;
     ahu_mixed_air_temp := ahu_mixed_air_temp self;
     ahu_supply_air_flow := ahu_supply_air_flow self; ahu_fan_speed := v;
     ahu_cooling_valve := ahu_cooling_valve self;
     ahu_heating_valve := ahu_heating_valve self;
     ahu_supply_air_setpoint := ahu_supply_air_setpoint self;
     vav_zone_temps := vav_zone_temps self; vav_zone_setpoints := vav_zone_setpoints self;
     vav_damper_positions := vav_damper_positions self; vav_airflows := vav_airflows self;
     vav_reheat_valves := vav_reheat_valves self; total_power := total_power self;
     total_energy := total_energy self |}.

Definition set_ahu_cooling_valve (v : R) (self : BuildingState) : BuildingState :=
  {| outdoor_temp := outdoor_temp self; is_occupied := is_occupied self;
     chilled_water_supply_temp := chilled_water_supply_temp self;
     chilled_water_return_temp := chilled_water_return_temp self;
     hot_water_supply_temp := hot_water_supply_temp self;
     hot_water_return_temp := hot_water_return_temp self;
     ahu_supply_air_temp := ahu_supply_air_temp self;
     ahu_return_air_temp := ahu_return_air_temp self;
     ahu_mixed_air_temp := ahu_mixed_air_temp self;
     ahu_supply_air_flow := ahu_supply_air_flow self; ahu_fan_speed := ahu_fan_speed self;
     ahu_cooling_valve := v; ahu_heating_valve := ahu_heating_valve self;
     ahu_supply_air_setpoint := ahu_supply_air_setpoint self;
     vav_zone_temps := vav_zone_temps self; vav_zone_setpoints := vav_zone_setpoints self;
     vav_damper_positions := vav_damper_positions self; vav_airflows := vav_airflows self;
     vav_reheat_valves := vav_reheat_valves self; total_power := total_power self;
     total_energy := total_energy self |}.

Definition set_ahu_supply_air_setpoint (v : R) (self : BuildingState) : BuildingState :=
  {| outdoor_temp := outdoor_temp self; is_occupied := is_occupied self;
     chilled_water_supply_temp := chilled_water_supply_temp self;
     chilled_water_return_temp := chilled_water_return_temp self;
     hot_water_supply_temp := hot_water_supply_temp self;
     hot_water_return_temp := hot_water_return_temp self;
     ahu_supply_air_temp := ahu_supply_air_temp self;
     ahu_return_air_temp := ahu_return_air_temp self;
     ahu_mixed_air_temp := ahu_mixed_air_temp self;
     ahu_supply_air_flow := ahu_supply_air_flow self; ahu_fan_speed := ahu_fan_speed self;
     ahu_cooling_valve := ahu_cooling_valve self;
     ahu_heating_valve := ahu_heating_valve self; ahu_supply_air_setpoint := v;
     vav_zone_temps := vav_zone_temps self; vav_zone_setpoints := vav_zone_setpoints self;
     vav_damper_positions := vav_damper_positions self; vav_airflows := vav_airflows self;
     vav_reheat_valves := vav_reheat_valves self; total_power := total_power self;
     total_energy := total_energy self |}.

Definition set_vav_zone_temps (v : list R) (self : BuildingState) : BuildingState :=
  {| outdoor_temp := outdoor_temp self; is_occupied := is_occupied self;
     chilled_water_supply_temp := chilled_water_supply_temp self;
     chilled_water_return_temp := chilled_water_return_temp self;
     hot_water_supply_temp := hot_water_supply_temp self;
     hot_water_return_temp := hot_water_return_temp self;
     ahu_supply_air_temp := ahu_supply_air_temp self;
     ahu_return_air_temp := ahu_return_air_temp self;
     ahu_mixed_air_temp := ahu_mixed_air_temp self;
     ahu_supply_air_flow := ahu_supply_air_flow self; ahu_fan_speed := ahu_fan_speed self;
     ahu_cooling_valve := ahu_cooling_valve self;
     ahu_heating_valve := ahu_heating_valve self;
     ahu_supply_air_setpoint := ahu_supply_air_setpoint self; vav_zone_temps := v;
     vav_zone_setpoints := vav_zone_setpoints self;
     vav_damper_positions := vav_damper_positions self; vav_airflows := vav_airflows self;
     vav_reheat_valves := vav_reheat_valves self; total_power := total_power self;
     total_energy := total_energy self |}.

Definition set_vav_zone_setpoints (v : list R) (self : BuildingState) : BuildingState :=
  {| outdoor_temp := outdoor_temp self; is_occupied := is_occupied self;
     chilled_water_supply_temp := chilled_water_supply_temp self;
     chilled_water_return_temp := chilled_water_return_temp self;
     hot_water_supply_temp := hot_water_supply_temp self;
     hot_water_return_temp := hot_water_return_temp self;
     ahu_supply_air_temp := ahu_supply_air_temp self;
     ahu_return_air_temp := ahu_return_air_temp self;
     ahu_mixed_air_temp := ahu_mixed_air_temp self;
     ahu_supply_air_flow := ahu_supply_air_flow self; ahu_fan_speed := ahu_fan_speed self;
     ahu_cooling_valve := ahu_cooling_valve self;
     ahu_heating_valve := ahu_heating_valve self;
     ahu_supply_air_setpoint := ahu_supply_air_setpoint self;
     vav_zone_temps := vav_zone_temps self; vav_zone_setpoints := v;
     vav_damper_positions := vav_damper_positions self; vav_airflows := vav_airflows self;
     vav_reheat_valves := vav_reheat_valves self; total_power := total_power self;
     total_energy := total_energy self |}.

Definition set_vav_damper_positions (v : list R) (self : BuildingState) : BuildingState :=
  {| outdoor_temp := outdoor_temp self; is_occupied := is_occupied self;
     chilled_water_supply_temp := chilled_water_supply_temp self;
     chilled_water_return_temp := chilled_water_return_temp self;
     hot_water_supply_temp := hot_water_supply_temp self;
     hot_water_return_temp := hot_water_return_temp self;
     ahu_supply_air_temp := ahu_supply_air_temp self;
     ahu_return_air_temp := ahu_return_air_temp self;
     ahu_mixed_air_temp := ahu_mixed_air_temp self;
     ahu_supply_air_flow := ahu_supply_air_flow self; ahu_fan_speed := ahu_fan_speed self;
     ahu_cooling_valve := ahu_cooling_valve self;
     ahu_heating_valve := ahu_heating_valve self;
     ahu_supply_air_setpoint := ahu_supply_air_setpoint self;
     vav_zone_temps := vav_zone_temps self; vav_zone_setpoints := vav_zone_setpoints self;
     vav_damper_positions := v; vav_airflows := vav_airflows self;
     vav_reheat_valves := vav_reheat_valves self; total_power := total_power self;
     total_energy := total_energy self |}.

Definition set_vav_airflows (v : list R) (self : BuildingState) : BuildingState :=
  {| outdoor_temp := outdoor_temp self; is_occupied := is_occupied self;
     chilled_water_supply_temp := chilled_water_supply_temp self;
     chilled_water_return_temp := chilled_water_return_temp self;
     hot_water_supply_temp := hot_water_supply_temp self;
     hot_water_return_temp := hot_water_return_temp self;
     ahu_supply_air_temp := ahu_supply_air_temp self;
     ahu_return_air_temp := ahu_return_air_temp self;
     ahu_mixed_air_temp := ahu_mixed_air_temp self;
     ahu_supply_air_flow := ahu_supply_air_flow self; ahu_fan_speed := ahu_fan_speed self;
     ahu_cooling_valve := ahu_cooling_valve self;
     ahu_heating_valve := ahu_heating_valve self;
     ahu_supply_air_setpoint := ahu_supply_air_setpoint self;
     vav_zone_temps := vav_zone_temps self; vav_zone_setpoints := vav_zone_setpoints self;
     vav_damper_positions := vav_damper_positions self; vav_airflows := v;
     vav_reheat_valves := vav_reheat_valves self; total_power := total_power self;
     total_energy := total_energy self |}.

Definition set_vav_reheat_valves (v : list R) (self : BuildingState) : BuildingState :=
  {| outdoor_temp := outdoor_temp self; is_occupied := is_occupied self;
     chilled_water_supply_temp := chilled_water_supply_temp self;
     chilled_water_return_temp := chilled_water_return_temp self;
     hot_water_supply_temp := hot_water_supply_temp self;
     hot_water_return_temp := hot_water_return_temp self;
     ahu_supply_air_temp := ahu_supply_air_temp self;
     ahu_return_air_temp := ahu_return_air_temp self;
     ahu_mixed_air_temp := ahu_mixed_air_temp self;
     ahu_supply_air_flow := ahu_supply_air_flow self; ahu_fan_speed := ahu_fan_speed self;
     ahu_cooling_valve := ahu_cooling_valve self;
     ahu_heating_valve := ahu_heating_valve self;
     ahu_supply_air_setpoint := ahu_supply_air_setpoint self;
     vav_zone_temps := vav_zone_temps self; vav_zone_setpoints := vav_zone_setpoints self;
     vav_damper_positions := vav_damper_positions self; vav_airflows := vav_airflows self;
     vav_reheat_valves := v; total_power := total_power self;
     total_energy := total_energy self |}.

Definition set_total_power (v : R) (self : BuildingState) : BuildingState :=
  {| outdoor_temp := outdoor_temp self; is_occupied := is_occupied self;
     chilled_water_supply_temp := chilled_water_supply_temp self;
     chilled_water_return_temp := chilled_water_return_temp self;
     hot_water_supply_temp := hot_water_supply_temp self;
     hot_water_return_temp := hot_water_return_temp self;
     ahu_supply_air_temp := ahu_supply_air_temp self;
     ahu_return_air_temp := ahu_return_air_temp self;
     ahu_mixed_air_temp := ahu_mixed_air_temp self;
     ahu_supply_air_flow := ahu_supply_air_flow self; ahu_fan_speed := ahu_fan_speed self;
     ahu_cooling_valve := ahu_cooling_valve self;
     ahu_heating_valve := ahu_heating_valve self;
     ahu_supply_air_setpoint := ahu_supply_air_setpoint self;
     vav_zone_temps := vav_zone_temps self; vav_zone_setpoints := vav_zone_setpoints self;
     vav_damper_positions := vav_damper_positions self; vav_airflows := vav_airflows self;
     vav_reheat_valves := vav_reheat_valves self; total_power := v;
     total_energy := total_energy self |}.

Definition set_total_energy (v : R) (self : BuildingState) : BuildingState :=
  {| outdoor_temp := outdoor_temp self; is_occupied := is_occupied self;
     chilled_water_supply_temp := chilled_water_supply_temp self;
     chilled_water_return_temp := chilled_water_return_temp self;
     hot_water_supply_temp := hot_water_supply_temp self;
     hot_water_return_temp := hot_water_return_temp self;
     ahu_supply_air_temp := ahu_supply_air_temp self;
     ahu_return_air_temp := ahu_return_air_temp self;
     ahu_mixed_air_temp := ahu_mixed_air_temp self;
     ahu_supply_air_flow := ahu_supply_air_flow self; ahu_fan_speed := ahu_fan_speed self;
     ahu_cooling_valve := ahu_cooling_valve self;
     ahu_heating_valve := ahu_heating_valve self;
     ahu_supply_air_setpoint := ahu_supply_air_setpoint self;
     vav_zone_temps := vav_zone_temps self; vav_zone_setpoints := vav_zone_setpoints self;
     vav_damper_positions := vav_damper_positions self; vav_airflows := vav_airflows self;
     vav_reheat_valves := vav_reheat_valves self; total_power := total_power self;
     total_energy := v |}.


(** ** BACnet objects (the points) *)

Inductive ObjectType : Type :=
| analogInput | analogValue | analogOutput | binaryInput | binaryOutput.

Definition ObjectIdentifier : Type := (ObjectType * Z)%type.

Inductive EngineeringUnits : Type :=
| degreesFahrenheit | cubicFeetPerMinute | percent | kilowatts | kilowattHours | volts.

(** A present value is a float (analog objects) or ["active"]/["inactive"]
    (binary objects, [Binary true] is ["active"]). *)
Inductive PropertyValue : Type :=
| Real (r : R)
| Binary (active : bool).

Record BACnetObject : Type := {
  objectIdentifier : ObjectIdentifier;
  objectName : string;
  presentValue : PropertyValue;
  units : option EngineeringUnits;
  description : string
}.

Definition set_presentValue (v : PropertyValue) (o : BACnetObject) : BACnetObject :=
  {| objectIdentifier := objectIdentifier o; objectName := objectName o;
     presentValue := v; units := units o; description := description o |}.

(** The constructors of the point library, by the keyword arguments that the
    profiles pass.  The record keeps of an object what simulator.py touches:
    the attribute [presentValue] as the profiles read and assign it.

    [AnalogOutputObject], [BinaryOutputObject] and
    [CommandableAnalogValueObject] are the library's commandable objects.
    Beside the attribute the library keeps for them a command priority
    array, which simulator.py never mentions and which is not modelled: a
    value commanded with a priority is not relinquished by an assignment to
    [presentValue], so for these objects the field below is the value last
    assigned or stored, and it is the value shown to a reader of the point
    only while no command is held, as on points that have just been
    created.

    The library's check of the instance number of an identifier (a negative
    one is refused) is not modelled either; it matters for a negative
    [zone_index] only. *)
Definition AnalogInputObject (oid : ObjectIdentifier) (name : string) (pv : R)
    (u : EngineeringUnits) (descr : string) : BACnetObject :=
  {| objectIdentifier := oid; objectName := name; presentValue := Real pv;
     units := Some u; description := descr |}.
Definition CommandableAnalogValueObject := AnalogInputObject.
Definition AnalogOutputObject := AnalogInputObject.

Definition BinaryInputObject (oid : ObjectIdentifier) (name : string) (pv : bool)
    (descr : string) : BACnetObject :=
  {| objectIdentifier := oid; objectName := name; presentValue := Binary pv;
     units := None; description := descr |}.
Definition BinaryOutputObject := BinaryInputObject.

(** ** Equipment profiles *)

(** The four profile classes; a [VAV] carries [zone_index], [floor] and
    [zone_name].  Every profile shares the simulator's BuildingState. *)
Inductive Profile : Type :=
| AHU
| VAV (zone_index floor : Z) (zone_name : string)
| Chiller
| Meter.

(** ** Log records *)

(** The status line is kept as the values it formats. *)
Inductive LogRecord : Type :=
| InfoInitialized (equipment : string) (n_objects : nat)
| InfoAHU (supply ret fan cooling : R)
| InfoVAV (idx : Z) (zone sp damper flow : R)
| InfoChiller (supply ret : R)
| InfoMeter (power energy : R)
| ErrorInLoop (e : exn).

(** ** The machine state *)

(** The BuildingSimulator object ([app], [state], [equipment_type], [profile],
    [objects]) together with the process environment.  [objects] is the store
    of the point objects; the application registry [app_objects] refers to
    them by identifier, so a write served by the application lands in
    [objects]. *)
Record Sim : Type := {
  app_objects : list ObjectIdentifier;
  state : BuildingState;
  equipment_type : string;
  profile : option Profile;
  objects : list BACnetObject;
  random_source : nat -> R;
  clock : nat -> datetime;
  log : list LogRecord;
  sleeps : nat
}.

Definition with_app_objects (v : list ObjectIdentifier) (s : Sim) : Sim :=
  {| app_objects := v; state := state s; equipment_type := equipment_type s;
     profile := profile s; objects := objects s; random_source := random_source s;
     clock := clock s; log := log s; sleeps := sleeps s |}.
Definition with_state (v : BuildingState) (s : Sim) : Sim :=
  {| app_objects := app_objects s; state := v; equipment_type := equipment_type s;
     profile := profile s; objects := objects s; random_source := random_source s;
     clock := clock s; log := log s; sleeps := sleeps s |}.
Definition with_equipment_type (v : string) (s : Sim) : Sim :=
  {| app_objects := app_objects s; state := state s; equipment_type := v;
     profile := profile s; objects := objects s; random_source := random_source s;
     clock := clock s; log := log s; sleeps := sleeps s |}.
Definition with_profile (v : option Profile) (s : Sim) : Sim :=
  {| app_objects := app_objects s; state := state s; equipment_type := equipment_type s;
     profile := v; objects := objects s; random_source := random_source s;
     clock := clock s; log := log s; sleeps := sleeps s |}.
Definition with_objects (v : list BACnetObject) (s : Sim) : Sim :=
  {| app_objects := app_objects s; state := state s; equipment_type := equipment_type s;
     profile := profile s; objects := v; random_source := random_source s;
     clock := clock s; log := log s; sleeps := sleeps s |}.
Definition with_random_source (v : nat -> R) (s : Sim) : Sim :=
  {| app_objects := app_objects s; state := state s; equipment_type := equipment_type s;
     profile := profile s; objects := objects s; random_source := v;
     clock := clock s; log := log s; sleeps := sleeps s |}.
Definition with_clock (v : nat -> datetime) (s : Sim) : Sim :=
  {| app_objects := app_objects s; state := state s; equipment_type := equipment_type s;
     profile := profile s; objects := objects s; random_source := random_source s;
     clock := v; log := log s; sleeps := sleeps s |}.
Definition with_log (v : list LogRecord) (s : Sim) : Sim :=
  {| app_objects := app_objects s; state := state s; equipment_type := equipment_type s;
     profile := profile s; objects := objects s; random_source := random_source s;
     clock := clock s; log := v; sleeps := sleeps s |}.
Definition with_sleeps (v : nat) (s : Sim) : Sim :=
  {| app_objects := app_objects s; state := state s; equipment_type := equipment_type s;
     profile := profile s; objects := objects s; random_source := random_source s;
     clock := clock s; log := log s; sleeps := v |}.

(** ** The monad *)

Definition M (A : Type) : Type := Sim -> result A * Sim.

Definition ret {A : Type} (a : A) : M A := fun s => (Ok a, s).

Definition bind {A B : Type} (m : M A) (f : A -> M B) : M B :=
  fun s =>
    match m s with
    | (Ok a, s') => f a s'
    | (Raise e, s') => (Raise e, s')
    end.

Definition raise {A : Type} (e : exn) : M A := fun s => (Raise e, s).

(** [try: body / except Exception as e: handler]: the handler runs in the
    state the body left behind. *)
Definition try_except {A : Type} (body : M A) (handler : exn -> M A) : M A :=
  fun s =>
    match body s with
    | (Ok a, s') => (Ok a, s')
    | (Raise e, s') => handler e s'
    end.

Declare Scope monad_scope.
Delimit Scope monad_scope with monad.
Notation "x <- m ;; k" := (bind m (fun x => k))
  (at level 61, m at next level, right associativity) : monad_scope.
Notation "m ;; k" := (bind m (fun _ => k))
  (at level 61, right associativity) : monad_scope.
Open Scope monad_scope.

Fixpoint for_each {A : Type} (l : list A) (body : A -> M unit) : M unit :=
  match l with
  | [] => ret tt
  | x :: t => body x ;; for_each t body
  end.

(** Reading and assigning attributes of [self.state]. *)
Definition gets {A : Type} (f : BuildingState -> A) : M A :=
  fun s => (Ok (f (state s)), s).

Definition assign {A : Type} (set : A -> BuildingState -> BuildingState) (v : A) : M unit :=
  fun s => (Ok tt, with_state (set v (state s)) s).

(** [self.state.field[i]] and [self.state.field[i] = v]; [IndexError] when
    the index is out of range. *)
Definition getitem (field : BuildingState -> list R) (i : Z) : M R :=
  l <- gets field ;;
  match list_getitem l i with
  | Some v => ret v
  | None => raise IndexError
  end.

Definition setitem (field : BuildingState -> list R)
    (set : list R -> BuildingState -> BuildingState) (i : Z) (v : R) : M unit :=
  l <- gets field ;;
  match list_setitem l i v with
  | Some l' => assign set l'
  | None => raise IndexError
  end.

(** [random.random()]: the next value of the generator, in [0, 1). *)
Definition random_random : M R :=
  fun s => (Ok (random_source s 0%nat),
            with_random_source (fun n => random_source s (S n)) s).

(** [random.uniform(a, b)] is [a + (b - a) * random()].  Over the reals the
    result stays below [b]; in floats the sum can round to [b] itself, so
    bounds on a drawn value are stated with [<=] on the side of [b]. *)
Definition random_uniform (a b : R) : M R :=
  u <- random_random ;;
  ret (a + (b - a) * u).

(** [datetime.now()]. *)
Definition datetime_now : M datetime :=
  fun s => (Ok (clock s 0%nat), with_clock (fun n => clock s (S n)) s).

(** ** BuildingState: the control loops *)

Definition is_business_hours : M bool :=
  now <- datetime_now ;;
  if (5 <=? weekday now)%Z then ret false
  else ret ((8 <=? hour now)%Z && (hour now <? 18)%Z).

Definition update_occupancy : M unit :=
  business <- is_business_hours ;;
  if (business : bool) then
    u <- random_random ;;
    assign set_is_occupied (Rltb u 0.95)
  else
    u <- random_random ;;
    assign set_is_occupied (Rltb u 0.05).

Definition update_outdoor_temp : M unit :=
  now <- datetime_now ;;
  let hour := hour now in
  let base_temp := 75 in
  let daily_swing := 15 in
  assign set_outdoor_temp
    (base_temp + daily_swing * sin (IZR (hour - 6) * PI / 12)) ;;
  noise <- random_uniform (-2) 2 ;;
  t <- gets outdoor_temp ;;
  assign set_outdoor_temp (t + noise).

Definition update_ahu : M unit :=
  (* Mixed air temperature (blend of return and outdoor) *)
  occupied <- gets is_occupied ;;
  let outdoor_damper := if (occupied : bool) then 20 else 10 in
  rat <- gets ahu_return_air_temp ;;
  oat <- gets outdoor_temp ;;
  assign set_ahu_mixed_air_temp
    (rat * (100 - outdoor_damper) / 100 + oat * outdoor_damper / 100) ;;
  (* Cooling valve control *)
  sat <- gets ahu_supply_air_temp ;;
  sp <- gets ahu_supply_air_setpoint ;;
  let temp_error := sat - sp in
  valve <- gets ahu_cooling_valve ;;
  assign set_ahu_cooling_valve (Rmax 0 (Rmin 100 (valve + temp_error * 2))) ;;
  (* Supply air temperature (affected by cooling valve) *)
  valve <- gets ahu_cooling_valve ;;
  let cooling_effect := valve * 0.3 in
  mat <- gets ahu_mixed_air_temp ;;
  assign set_ahu_supply_air_temp (mat - cooling_effect) ;;
  (* Return air is average of all zone temps *)
  temps <- gets vav_zone_temps ;;
  (if Nat.eqb (length temps) 0 then raise ZeroDivisionError
   else assign set_ahu_return_air_temp (py_sum temps / INR (length temps))) ;;
  (* Fan speed based on demand *)
  occupied <- gets is_occupied ;;
  (if (occupied : bool) then
     noise <- random_uniform (-5) 5 ;;
     assign set_ahu_fan_speed (75 + noise)
   else
     noise <- random_uniform (-5) 5 ;;
     assign set_ahu_fan_speed (40 + noise)) ;;
  fan <- gets ahu_fan_speed ;;
  assign set_ahu_supply_air_flow (fan * 160).

(** The body of [for i in range(6)] in [update_vavs]. *)
Definition update_vavs_zone (i : Z) : M unit :=
  (* Zone load varies by occupancy *)
  occupied <- gets is_occupied ;;
  let base_load := if (occupied : bool) then 0.5 else 0.1 in
  noise <- random_uniform (-0.2) 0.2 ;;
  let zone_load := base_load + noise in
  (* Perimeter zones (even indices) have more solar gain *)
  let zone_load := if (i mod 2 =? 0)%Z then zone_load + 0.3 else zone_load in
  (* Temperature control *)
  zt <- getitem vav_zone_temps i ;;
  zsp <- getitem vav_zone_setpoints i ;;
  let temp_error := zt - zsp in
  (* Damper position control *)
  damper <- getitem vav_damper_positions i ;;
  setitem vav_damper_positions set_vav_damper_positions i
    (Rmax 20 (Rmin 100 (damper + temp_error * 3))) ;;
  (* Airflow based on damper position *)
  damper <- getitem vav_damper_positions i ;;
  setitem vav_airflows set_vav_airflows i (damper * 30) ;;
  (* Zone temperature physics *)
  flow <- getitem vav_airflows i ;;
  zt <- getitem vav_zone_temps i ;;
  sat <- gets ahu_supply_air_temp ;;
  let cooling_effect := (flow / 2000) * (zt - sat) * 0.1 in
  let heat_gain := zone_load * 2 in
  zt <- getitem vav_zone_temps i ;;
  setitem vav_zone_temps set_vav_zone_temps i
    (zt + (heat_gain - cooling_effect) * (INTERVAL / 60)) ;;
  (* Reheat valve (only if zone is too cold) *)
  zt <- getitem vav_zone_temps i ;;
  zsp <- getitem vav_zone_setpoints i ;;
  if Rltb zt (zsp - 1) then
    reheat <- getitem vav_reheat_valves i ;;
    setitem vav_reheat_valves set_vav_reheat_valves i (Rmin 100 (reheat + 5))
  else
    reheat <- getitem vav_reheat_valves i ;;
    setitem vav_reheat_valves set_vav_reheat_valves i (Rmax 0 (reheat - 5)).

Definition update_vavs : M unit := for_each (range 6) update_vavs_zone.

Definition update_chiller : M unit :=
  valve <- gets ahu_cooling_valve ;;
  let cooling_load := valve * 100 in
  if Rltb 50 cooling_load then
    n1 <- random_uniform (-1) 1 ;;
    assign set_chilled_water_supply_temp (42 + n1) ;;
    n2 <- random_uniform (-1) 1 ;;
    assign set_chilled_water_return_temp (52 + n2)
  else
    n1 <- random_uniform (-1) 1 ;;
    assign set_chilled_water_supply_temp (44 + n1) ;;
    n2 <- random_uniform (-1) 1 ;;
    assign set_chilled_water_return_temp (54 + n2).

(** The three local power terms of [update_power]. *)
Definition ahu_power (fan_speed : R) : R := (fan_speed / 100) ^ 3 * 15.
Definition chiller_power (cooling_valve : R) : R := (cooling_valve / 100) * 80.
Definition reheat_power (reheat_valves : list R) : R := py_sum reheat_valves / 100 * 2.

Definition update_power : M unit :=
  fan <- gets ahu_fan_speed ;;
  let ahu_power_kw := ahu_power fan in
  valve <- gets ahu_cooling_valve ;;
  let chiller_power_kw := chiller_power valve in
  reheats <- gets vav_reheat_valves ;;
  let reheat_power_kw := reheat_power reheats in
  occupied <- gets is_occupied ;;
  misc_power <- (if (occupied : bool) then
                   noise <- random_uniform (-5) 5 ;; ret (50 + noise)
                 else
                   noise <- random_uniform (-2) 2 ;; ret (10 + noise)) ;;
  assign set_total_power
    (ahu_power_kw + chiller_power_kw + reheat_power_kw + misc_power) ;;
  power <- gets total_power ;;
  energy <- gets total_energy ;;
  assign set_total_energy (energy + power * (INTERVAL / 3600)).

(** [BuildingState.update]. *)
Definition update : M unit :=
  update_occupancy ;;
  update_outdoor_temp ;;
  update_ahu ;;
  update_vavs ;;
  update_chiller ;;
  update_power.

(** ** Access to the simulator object and to its point objects *)

Definition get_sim {A : Type} (f : Sim -> A) : M A := fun s => (Ok (f s), s).
Definition modify_sim (f : Sim -> Sim) : M unit := fun s => (Ok tt, f s).

(** [objects[k].presentValue], as an expression and as an assignment target.
    [objects] is always the simulator's own list, passed by reference. *)
Definition get_presentValue (k : Z) : M PropertyValue :=
  objs <- get_sim objects ;;
  match list_getitem objs k with
  | Some o => ret (presentValue o)
  | None => raise IndexError
  end.

Definition put_presentValue (k : Z) (v : PropertyValue) : M unit :=
  objs <- get_sim objects ;;
  match list_getitem objs k with
  | Some o =>
      match list_setitem objs k (set_presentValue v o) with
      | Some objs' => modify_sim (with_objects objs')
      | None => raise IndexError
      end
  | None => raise IndexError
  end.

(** A float read back from an analog point.  The point service only stores
    floats in analog points; any other value is rejected here, where Python
    would fail at the next arithmetic use of the setpoint. *)
Definition as_float (v : PropertyValue) : M R :=
  match v with
  | Real r => ret r
  | Binary _ => raise TypeError
  end.

(** A write served by the application between two ticks: the present value
    of the [k]-th point of the profile is replaced. *)
Definition external_write (k : nat) (v : PropertyValue) (s : Sim) : Sim :=
  match nth_error (objects s) k with
  | Some o => with_objects (list_update (objects s) k (set_presentValue v o)) s
  | None => s
  end.

Definition logger (r : LogRecord) : M unit :=
  modify_sim (fun s => with_log (log s ++ [r]) s).

Module AHUProfile.

Definition create_objects : M (list BACnetObject) :=
  sat <- gets ahu_supply_air_temp ;;
  rat <- gets ahu_return_air_temp ;;
  mat <- gets ahu_mixed_air_temp ;;
  flow <- gets ahu_supply_air_flow ;;
  sp <- gets ahu_supply_air_setpoint ;;
  fan <- gets ahu_fan_speed ;;
  valve <- gets ahu_cooling_valve ;;
  ret [ AnalogInputObject (analogInput, 1%Z) "AHU-1-Supply-Air-Temp" sat
          degreesFahrenheit "AHU Supply Air Temperature";
        AnalogInputObject (analogInput, 2%Z) "AHU-1-Return-Air-Temp" rat
          degreesFahrenheit "AHU Return Air Temperature";
        AnalogInputObject (analogInput, 3%Z) "AHU-1-Mixed-Air-Temp" mat
          degreesFahrenheit "AHU Mixed Air Temperature";
        AnalogInputObject (analogInput, 4%Z) "AHU-1-Supply-Air-Flow" flow
          cubicFeetPerMinute "AHU Supply Air Flow";
        CommandableAnalogValueObject (analogValue, 1%Z) "AHU-1-Supply-Air-Temp-SP" sp
          degreesFahrenheit "AHU Supply Air Temperature Setpoint";
        AnalogOutputObject (analogOutput, 1%Z) "AHU-1-Fan-Speed-Cmd" fan
          percent "AHU Fan Speed Command";
        AnalogOutputObject (analogOutput, 2%Z) "AHU-1-Cooling-Valve" valve
          percent "AHU Cooling Valve Position";
        BinaryInputObject (binaryInput, 1%Z) "AHU-1-Fan-Status" true
          "AHU Fan Running Status";
        BinaryOutputObject (binaryOutput, 1%Z) "AHU-1-Enable" true
          "AHU Enable Command" ].

Definition update_objects : M unit :=
  v <- gets ahu_supply_air_temp ;; put_presentValue 0 (Real v) ;;
  v <- gets ahu_return_air_temp ;; put_presentValue 1 (Real v) ;;
  v <- gets ahu_mixed_air_temp ;; put_presentValue 2 (Real v) ;;
  v <- gets ahu_supply_air_flow ;; put_presentValue 3 (Real v) ;;
  (* Setpoint is commandable, read from object *)
  pv <- get_presentValue 4 ;; sp <- as_float pv ;;
  assign set_ahu_supply_air_setpoint sp ;;
  v <- gets ahu_fan_speed ;; put_presentValue 5 (Real v) ;;
  v <- gets ahu_cooling_valve ;; put_presentValue 6 (Real v).

End AHUProfile.

Module VAVProfile.

Definition create_objects (zone_index floor : Z) (zone_name : string)
    : M (list BACnetObject) :=
  let base_id := (zone_index * 10)%Z in
  let prefix := ("Floor" ++ str_of_int floor ++ "-" ++ zone_name)%string in
  let descr := ("Floor " ++ str_of_int floor ++ " " ++ zone_name)%string in
  zt <- getitem vav_zone_temps zone_index ;;
  zsp <- getitem vav_zone_setpoints zone_index ;;
  damper <- getitem vav_damper_positions zone_index ;;
  flow <- getitem vav_airflows zone_index ;;
  reheat <- getitem vav_reheat_valves zone_index ;;
  occupied <- gets is_occupied ;;
  ret [ AnalogInputObject (analogInput, base_id + 1)%Z (prefix ++ "-Zone-Temp") zt
          degreesFahrenheit (descr ++ " Zone Temperature");
        CommandableAnalogValueObject (analogValue, base_id + 1)%Z
          (prefix ++ "-Zone-Temp-SP") zsp
          degreesFahrenheit (descr ++ " Zone Temperature Setpoint");
        AnalogOutputObject (analogOutput, base_id + 1)%Z (prefix ++ "-Damper-Pos") damper
          percent (descr ++ " Damper Position");
        AnalogInputObject (analogInput, base_id + 2)%Z (prefix ++ "-Airflow") flow
          cubicFeetPerMinute (descr ++ " Airflow");
        AnalogOutputObject (analogOutput, base_id + 2)%Z (prefix ++ "-Reheat-Valve") reheat
          percent (descr ++ " Reheat Valve");
        BinaryInputObject (binaryInput, base_id + 1)%Z (prefix ++ "-Occupancy") occupied
          (descr ++ " Occupancy Sensor") ].

Definition update_objects (zone_index : Z) : M unit :=
  v <- getitem vav_zone_temps zone_index ;; put_presentValue 0 (Real v) ;;
  (* Setpoint is commandable *)
  pv <- get_presentValue 1 ;; sp <- as_float pv ;;
  setitem vav_zone_setpoints set_vav_zone_setpoints zone_index sp ;;
  v <- getitem vav_damper_positions zone_index ;; put_presentValue 2 (Real v) ;;
  v <- getitem vav_airflows zone_index ;; put_presentValue 3 (Real v) ;;
  v <- getitem vav_reheat_valves zone_index ;; put_presentValue 4 (Real v) ;;
  occupied <- gets is_occupied ;; put_presentValue 5 (Binary occupied).

End VAVProfile.

Module ChillerProfile.

Definition create_objects : M (list BACnetObject) :=
  chws <- gets chilled_water_supply_temp ;;
  chwr <- gets chilled_water_return_temp ;;
  ret [ AnalogInputObject (analogInput, 100%Z) "Chiller-1-CHW-Supply-Temp" chws
          degreesFahrenheit "Chiller Chilled Water Supply Temperature";
        AnalogInputObject (analogInput, 101%Z) "Chiller-1-CHW-Return-Temp" chwr
          degreesFahrenheit "Chiller Chilled Water Return Temperature";
        BinaryInputObject (binaryInput, 100%Z) "Chiller-1-Status" true
          "Chiller Running Status";
        BinaryOutputObject (binaryOutput, 100%Z) "Chiller-1-Enable" true
          "Chiller Enable Command" ].

Definition update_objects : M unit :=
  v <- gets chilled_water_supply_temp ;; put_presentValue 0 (Real v) ;;
  v <- gets chilled_water_return_temp ;; put_presentValue 1 (Real v).

End ChillerProfile.

Module MeterProfile.

Definition create_objects : M (list BACnetObject) :=
  power <- gets total_power ;;
  energy <- gets total_energy ;;
  ret [ AnalogInputObject (analogInput, 200%Z) "Main-Meter-Total-Power" power
          kilowatts "Building Total Power Demand";
        AnalogInputObject (analogInput, 201%Z) "Main-Meter-Total-Energy" energy
          kilowattHours "Building Total Energy Consumption";
        AnalogInputObject (analogInput, 202%Z) "Main-Meter-Voltage" 480
          volts "Main Electrical Voltage" ].

Definition update_objects : M unit :=
  v <- gets total_power ;; put_presentValue 0 (Real v) ;;
  v <- gets total_energy ;; put_presentValue 1 (Real v) ;;
  noise <- random_uniform (-5) 5 ;; put_presentValue 2 (Real (480 + noise)).

End MeterProfile.

(** Method dispatch on [self.profile]. *)
Definition create_objects (p : Profile) : M (list BACnetObject) :=
  match p with
  | AHU => AHUProfile.create_objects
  | VAV zone_index floor zone_name => VAVProfile.create_objects zone_index floor zone_name
  | Chiller => ChillerProfile.create_objects
  | Meter => MeterProfile.create_objects
  end.

Definition update_objects (p : Profile) : M unit :=
  match p with
  | AHU => AHUProfile.update_objects
  | VAV zone_index _ _ => VAVProfile.update_objects zone_index
  | Chiller => ChillerProfile.update_objects
  | Meter => MeterProfile.update_objects
  end.

(** ** BuildingSimulator *)

(** [int(s)]; the message shows [repr(s)], which is [s] between single quotes
    when [s] has no quote, backslash or unprintable character. *)
Definition int (s : string) : M Z :=
  match int_of_str s with
  | Some z => ret z
  | None => raise (ValueError ("invalid literal for int() with base 10: '" ++ s ++ "'"))
  end.

Definition get_profile : M Profile :=
  p <- get_sim profile ;;
  match p with
  | Some p => ret p
  | None => raise AttributeError
  end.

(** [app.add_object(obj)]: the application records the object under its
    identifier. *)
Definition add_object (obj : BACnetObject) : M unit :=
  modify_sim (fun s => with_app_objects (app_objects s ++ [objectIdentifier obj]) s).

(** [BuildingSimulator.__init__].  Scheduling [update_loop] as a task is not
    part of the model; the loop is [update_loop] below. *)
Definition BuildingSimulator_init (equipment : string) : M unit :=
  modify_sim (with_app_objects []) ;;
  modify_sim (with_state BuildingState_init) ;;
  modify_sim (with_equipment_type equipment) ;;
  modify_sim (with_objects []) ;;
  (* Create equipment based on type *)
  (if String.eqb equipment "ahu" then
     modify_sim (with_profile (Some AHU))
   else if startswith "vav" equipment then
     zone_index <- int (str_from 3 equipment) ;;
     let floor := (zone_index / 2 + 1)%Z in
     let zone_name := if (zone_index mod 2 =? 0)%Z then "North"%string else "South"%string in
     modify_sim (with_profile (Some (VAV zone_index floor zone_name)))
   else if String.eqb equipment "chiller" then
     modify_sim (with_profile (Some Chiller))
   else if String.eqb equipment "meter" then
     modify_sim (with_profile (Some Meter))
   else
     raise (ValueError ("Unknown equipment type: " ++ equipment))) ;;
  p <- get_profile ;;
  objs <- create_objects p ;;
  modify_sim (with_objects objs) ;;
  objs <- get_sim objects ;;
  for_each objs add_object ;;
  objs <- get_sim objects ;;
  logger (InfoInitialized equipment (length objs)).

(** The status line of one iteration. *)
Definition log_status : M unit :=
  equipment <- get_sim equipment_type ;;
  if String.eqb equipment "ahu" then
    sat <- gets ahu_supply_air_temp ;;
    rat <- gets ahu_return_air_temp ;;
    fan <- gets ahu_fan_speed ;;
    valve <- gets ahu_cooling_valve ;;
    logger (InfoAHU sat rat fan valve)
  else if startswith "vav" equipment then
    idx <- int (str_from 3 equipment) ;;
    zt <- getitem vav_zone_temps idx ;;
    zsp <- getitem vav_zone_setpoints idx ;;
    damper <- getitem vav_damper_positions idx ;;
    flow <- getitem vav_airflows idx ;;
    logger (InfoVAV idx zt zsp damper flow)
  else if String.eqb equipment "chiller" then
    chws <- gets chilled_water_supply_temp ;;
    chwr <- gets chilled_water_return_temp ;;
    logger (InfoChiller chws chwr)
  else if String.eqb equipment "meter" then
    power <- gets total_power ;;
    energy <- gets total_energy ;;
    logger (InfoMeter power energy)
  else ret tt.

(** [await asyncio.sleep(INTERVAL)]: only counted. *)
Definition asyncio_sleep : M unit :=
  modify_sim (fun s => with_sleeps (S (sleeps s)) s).

(** The [try] block of [update_loop]. *)
Definition update_loop_body : M unit :=
  (* Update building physics *)
  update ;;
  (* Update BACnet objects *)
  p <- get_profile ;;
  update_objects p ;;
  (* Log status on every iteration *)
  log_status.

(** One pass through the body of [while True] in [update_loop]. *)
Definition update_loop_iteration : M unit :=
  try_except update_loop_body (fun e => logger (ErrorInLoop e)) ;;
  asyncio_sleep.

(** [update_loop] never returns; [update_loop n] is its first [n]
    iterations. *)
Fixpoint update_loop (n : nat) : M unit :=
  match n with
  | O => ret tt
  | S n' => update_loop_iteration ;; update_loop n'
  end.

(** A machine on which no simulator has been constructed yet. *)
Definition fresh_process (rnd : nat -> R) (clk : nat -> datetime) : Sim :=
  {| app_objects := []; state := BuildingState_init; equipment_type := "";
     profile := None; objects := []; random_source := rnd; clock := clk;
     log := []; sleeps := 0 |}.


(** ** Closed forms of the control loops

    What each control loop leaves in BuildingState, as a function of the
    previous state, the clock reading and the random draws it consumes.  They
    are proved equal to the code below ([update_ahu_run] and the like) and
    serve to carry the claims from the formulas to [update]. *)

Definition occupancy_post (now : datetime) (u : R) (st : BuildingState) : BuildingState :=
  let business :=
    if (5 <=? weekday now)%Z then false
    else ((8 <=? hour now)%Z && (hour now <? 18)%Z) in
  set_is_occupied (if business then Rltb u 0.95 else Rltb u 0.05) st.

Definition outdoor_temp_post (now : datetime) (u : R) (st : BuildingState) : BuildingState :=
  set_outdoor_temp
    (75 + 15 * sin (IZR (hour now - 6) * PI / 12) + (-2 + (2 - -2) * u)) st.

Definition ahu_post (u : R) (st : BuildingState) : BuildingState :=
  let outdoor_damper := if is_occupied st then 20 else 10 in
  let mixed := ahu_return_air_temp st * (100 - outdoor_damper) / 100
               + outdoor_temp st * outdoor_damper / 100 in
  let valve := Rmax 0 (Rmin 100 (ahu_cooling_valve st
                 + (ahu_supply_air_temp st - ahu_supply_air_setpoint st) * 2)) in
  let supply := mixed - valve * 0.3 in
  let return_air := py_sum (vav_zone_temps st) / INR (length (vav_zone_temps st)) in
  let fan := (if is_occupied st then 75 else 40) + (-5 + (5 - -5) * u) in
  set_ahu_supply_air_flow (fan * 160)
    (set_ahu_fan_speed fan
      (set_ahu_return_air_temp return_air
        (set_ahu_supply_air_temp supply
          (set_ahu_cooling_valve valve
            (set_ahu_mixed_air_temp mixed st))))).

Definition zone_post (k : nat) (u : R) (st : BuildingState) : BuildingState :=
  let base_load := if is_occupied st then 0.5 else 0.1 in
  let zone_load := base_load + (-0.2 + (0.2 - -0.2) * u) in
  let zone_load := if (Z.of_nat k mod 2 =? 0)%Z then zone_load + 0.3 else zone_load in
  let zt := nth k (vav_zone_temps st) 0 in
  let zsp := nth k (vav_zone_setpoints st) 0 in
  let damper := Rmax 20 (Rmin 100 (nth k (vav_damper_positions st) 0 + (zt - zsp) * 3)) in
  let flow := damper * 30 in
  let cooling_effect := flow / 2000 * (zt - ahu_supply_air_temp st) * 0.1 in
  let heat_gain := zone_load * 2 in
  let zt' := zt + (heat_gain - cooling_effect) * (INTERVAL / 60) in
  let reheat := nth k (vav_reheat_valves st) 0 in
  let reheat' := if Rltb zt' (zsp - 1) then Rmin 100 (reheat + 5)
                 else Rmax 0 (reheat - 5) in
  set_vav_reheat_valves (list_update (vav_reheat_valves st) k reheat')
    (set_vav_zone_temps (list_update (vav_zone_temps st) k zt')
      (set_vav_airflows (list_update (vav_airflows st) k flow)
        (set_vav_damper_positions (list_update (vav_damper_positions st) k damper) st))).

(** The temperature that [zone_post] leaves in slot [k]. *)
Definition zone_temp_post (k : nat) (u : R) (st : BuildingState) : R :=
  let base_load := if is_occupied st then 0.5 else 0.1 in
  let zone_load := base_load + (-0.2 + (0.2 - -0.2) * u) in
  let zone_load := if (Z.of_nat k mod 2 =? 0)%Z then zone_load + 0.3 else zone_load in
  let zt := nth k (vav_zone_temps st) 0 in
  let zsp := nth k (vav_zone_setpoints st) 0 in
  let damper := Rmax 20 (Rmin 100 (nth k (vav_damper_positions st) 0 + (zt - zsp) * 3)) in
  zt + (zone_load * 2 - damper * 30 / 2000 * (zt - ahu_supply_air_temp st) * 0.1)
       * (INTERVAL / 60).

(** Zone [k] takes the [k]-th draw of the loop. *)
Definition vavs_post (us : nat -> R) (st : BuildingState) : BuildingState :=
  fold_left (fun st k => zone_post k (us k) st) (seq 0 6) st.

Definition chiller_post (u1 u2 : R) (st : BuildingState) : BuildingState :=
  if Rltb 50 (ahu_cooling_valve st * 100) then
    set_chilled_water_return_temp (52 + (-1 + (1 - -1) * u2))
      (set_chilled_water_supply_temp (42 + (-1 + (1 - -1) * u1)) st)
  else
    set_chilled_water_return_temp (54 + (-1 + (1 - -1) * u2))
      (set_chilled_water_supply_temp (44 + (-1 + (1 - -1) * u1)) st).

Definition power_post (u : R) (st : BuildingState) : BuildingState :=
  let misc_power := if is_occupied st then 50 + (-5 + (5 - -5) * u)
                    else 10 + (-2 + (2 - -2) * u) in
  let power := ahu_power (ahu_fan_speed st) + chiller_power (ahu_cooling_valve st)
               + reheat_power (vav_reheat_valves st) + misc_power in
  set_total_energy (total_energy st + power * (INTERVAL / 3600))
    (set_total_power power st).

(** One [update]: two clock readings and twelve draws. *)
Definition tick_post (clk : nat -> datetime) (rnd : nat -> R) (st : BuildingState)
    : BuildingState :=
  power_post (rnd 11%nat)
    (chiller_post (rnd 9%nat) (rnd 10%nat)
      (vavs_post (fun k => rnd (3 + k)%nat)
        (ahu_post (rnd 2%nat)
          (outdoor_temp_post (clk 1%nat) (rnd 1%nat)
            (occupancy_post (clk 0%nat) (rnd 0%nat) st))))).

(** The environment after [r] draws and [c] clock readings. *)
Definition advance (r c : nat) (s : Sim) : Sim :=
  with_random_source (fun n => random_source s (r + n)%nat)
    (with_clock (fun n => clock s (c + n)%nat) s).

(** ** Predicates on states *)

(** The five zone lists hold six entries. *)
Definition six_zones (st : BuildingState) : Prop :=
  length (vav_zone_temps st) = 6%nat /\
  length (vav_zone_setpoints st) = 6%nat /\
  length (vav_damper_positions st) = 6%nat /\
  length (vav_airflows st) = 6%nat /\
  length (vav_reheat_valves st) = 6%nat.

(** The actuator ranges of the specification. *)
Definition in_range (lo hi x : R) : Prop := lo <= x <= hi.

Definition actuators_in_range (st : BuildingState) : Prop :=
  Forall (in_range 20 100) (vav_damper_positions st) /\
  in_range 0 100 (ahu_cooling_valve st) /\
  Forall (in_range 0 100) (vav_reheat_valves st).

(** [random.random()] returns a float in [0, 1). *)
Definition random_ok (s : Sim) : Prop := forall n, 0 <= random_source s n < 1.

(** States reached from the default constructor by [update] ticks. *)
Inductive reachable : Sim -> Prop :=
| reachable_init : forall s, state s = BuildingState_init -> reachable s
| reachable_update : forall s s', reachable s -> update s = (Ok tt, s') -> reachable s'.

(** ** Concrete environments *)

(** Every draw is 1/2: each [random.uniform(-a, a)] returns 0. *)
Definition calm_noise : nat -> R := fun _ => 1 / 2.

Definition monday_noon : datetime := {| weekday := 0; hour := 12 |}.

(** A process started on a Monday at noon, and its state after the first
    [update]. *)
Definition noon_process : Sim := fresh_process calm_noise (fun _ => monday_noon).
Definition noon_process_1 : Sim :=
  with_state (tick_post (clock noon_process) (random_source noon_process)
                (state noon_process))
    (advance 12 2 noon_process).


(** Simulators as [BuildingSimulator.__init__] leaves them. *)
Definition ahu_simulator : Sim := snd (BuildingSimulator_init "ahu" noon_process).
Definition vav3_simulator : Sim := snd (BuildingSimulator_init "vav3" noon_process).
Definition chiller_simulator : Sim := snd (BuildingSimulator_init "chiller" noon_process).
Definition meter_simulator : Sim := snd (BuildingSimulator_init "meter" noon_process).

(** ** Frames *)

(** [rel] relates the BuildingState before and after a computation, whether
    it returns or raises. *)
Definition state_frame {A : Type} (rel : BuildingState -> BuildingState -> Prop)
    (m : M A) : Prop :=
  forall s, rel (state s) (state (snd (m s))).

(** What [AHUProfile.update_objects] may change: the supply-air setpoint. *)
Definition ahu_setpoint_only (st st' : BuildingState) : Prop :=
  st' = set_ahu_supply_air_setpoint (ahu_supply_air_setpoint st') st.

(** What [VAVProfile.update_objects] may change: slot [zone_index] of the zone
    setpoints. *)
Definition zone_setpoint_only (zone_index : Z) (st st' : BuildingState) : Prop :=
  st' = set_vav_zone_setpoints (vav_zone_setpoints st') st /\
  length (vav_zone_setpoints st') = length (vav_zone_setpoints st) /\
  forall j, py_index (length (vav_zone_setpoints st)) zone_index <> Some j ->
    nth_error (vav_zone_setpoints st') j = nth_error (vav_zone_setpoints st) j.

(** ** The running simulator *)

(** [rel] relates the machine before and after a computation, whether it
    returns or raises. *)
Definition sim_frame {A : Type} (rel : Sim -> Sim -> Prop) (m : M A) : Prop :=
  forall s, rel s (snd (m s)).

(** Everything of a point but its present value. *)
Definition point_descriptor (o : BACnetObject)
    : ObjectIdentifier * string * option EngineeringUnits * string :=
  (objectIdentifier o, objectName o, units o, description o).

(** The machines that a simulator started in [s0] goes through: iterations
    of [update_loop], and writes served by the application at any time
    between them. *)
Inductive running (s0 : Sim) : Sim -> Prop :=
| running_start : running s0 s0
| running_iteration : forall s r s',
    running s0 s -> update_loop_iteration s = (r, s') -> running s0 s'
| running_write : forall s k v,
    running s0 s -> running s0 (external_write k v s).

(** The invariant of C1 as a relation between two machines. *)
Definition keeps_ranges (s s' : Sim) : Prop :=
  six_zones (state s) ->
  six_zones (state s') /\
  (actuators_in_range (state s) -> actuators_in_range (state s')).

(** The points keep their number, identifiers, names, units and
    descriptions, and the registry, profile and selector stay. *)
Definition keeps_points (s s' : Sim) : Prop :=
  map point_descriptor (objects s') = map point_descriptor (objects s) /\
  app_objects s' = app_objects s /\
  profile s' = profile s /\
  equipment_type s' = equipment_type s.

(** Cumulative energy does not decrease, as a relation between two machines
    whose generator returns values in [0, 1). *)
Definition keeps_energy (s s' : Sim) : Prop :=
  six_zones (state s) /\ actuators_in_range (state s) /\ random_ok s ->
  six_zones (state s') /\ actuators_in_range (state s') /\ random_ok s' /\
  total_energy (state s) <= total_energy (state s').

(** * Proofs *)

(** ** Lists with Python indexing *)

Lemma length_list_update {A : Type} (l : list A) (k : nat) (v : A) :
  length (list_update l k v) = length l.
Proof.
  revert k; induction l as [|h t IH]; intros [|k]; simpl; auto.
Qed.

Lemma nth_list_update_eq {A : Type} (l : list A) (k : nat) (v d : A) :
  (k < length l)%nat -> nth k (list_update l k v) d = v.
Proof.
  revert k; induction l as [|h t IH]; intros [|k] H; simpl in *; try lia; auto.
  apply IH; lia.
Qed.

Lemma nth_list_update_neq {A : Type} (l : list A) (j k : nat) (v d : A) :
  j <> k -> nth j (list_update l k v) d = nth j l d.
Proof.
  revert j k; induction l as [|h t IH]; intros [|j] [|k] H; simpl; auto; try lia.
Qed.

Lemma Forall_list_update {A : Type} (P : A -> Prop) (l : list A) (k : nat) (v : A) :
  Forall P l -> P v -> Forall P (list_update l k v).
Proof.
  intros Hl Hv; revert k; induction Hl as [|h t Hh Ht IH]; intros [|k]; simpl; auto.
Qed.

Lemma py_index_nat (n k : nat) : (k < n)%nat -> py_index n (Z.of_nat k) = Some k.
Proof.
  intros H; unfold py_index.
  destruct (Z.leb_spec 0 (Z.of_nat k)); [|lia].
  destruct (Z.ltb_spec (Z.of_nat k) (Z.of_nat n)); [|lia].
  now rewrite Nat2Z.id.
Qed.

Lemma list_getitem_nat {A : Type} (l : list A) (k : nat) (d : A) :
  (k < length l)%nat -> list_getitem l (Z.of_nat k) = Some (nth k l d).
Proof.
  intros H; unfold list_getitem; rewrite py_index_nat by exact H.
  now apply nth_error_nth'.
Qed.

Lemma list_setitem_nat {A : Type} (l : list A) (k : nat) (v : A) :
  (k < length l)%nat -> list_setitem l (Z.of_nat k) v = Some (list_update l k v).
Proof.
  intros H; unfold list_setitem; now rewrite py_index_nat.
Qed.

(** ** Running the monad *)

Lemma bind_run {A B : Type} (m : M A) (f : A -> M B) (s s' : Sim) (a : A) :
  m s = (Ok a, s') -> bind m f s = f a s'.
Proof. intros H; unfold bind; now rewrite H. Qed.


Lemma getitem_run (field : BuildingState -> list R) (k : nat) (s : Sim) :
  (k < length (field (state s)))%nat ->
  getitem field (Z.of_nat k) s = (Ok (nth k (field (state s)) 0), s).
Proof.
  intros H; unfold getitem, bind, gets.
  now rewrite (list_getitem_nat _ _ 0 H).
Qed.

Lemma setitem_run (field : BuildingState -> list R)
    (set : list R -> BuildingState -> BuildingState) (k : nat) (v : R) (s : Sim) :
  (k < length (field (state s)))%nat ->
  setitem field set (Z.of_nat k) v s
  = (Ok tt, with_state (set (list_update (field (state s)) k v) (state s)) s).
Proof.
  intros H; unfold setitem, bind, gets.
  now rewrite (list_setitem_nat _ _ v H).
Qed.

(** ** The control loops run to their closed forms *)

Lemma update_occupancy_run (s : Sim) :
  update_occupancy s
  = (Ok tt, with_state (occupancy_post (clock s 0%nat) (random_source s 0%nat) (state s))
              (advance 1 1 s)).
Proof.
  unfold update_occupancy, is_business_hours, occupancy_post, bind, datetime_now.
  destruct (5 <=? weekday (clock s 0%nat))%Z; simpl.
  - reflexivity.
  - destruct ((8 <=? hour (clock s 0%nat))%Z && (hour (clock s 0%nat) <? 18)%Z);
      reflexivity.
Qed.

Lemma update_outdoor_temp_run (s : Sim) :
  update_outdoor_temp s
  = (Ok tt, with_state (outdoor_temp_post (clock s 0%nat) (random_source s 0%nat) (state s))
              (advance 1 1 s)).
Proof. reflexivity. Qed.

Lemma update_ahu_run (s : Sim) :
  vav_zone_temps (state s) <> [] ->
  update_ahu s
  = (Ok tt, with_state (ahu_post (random_source s 0%nat) (state s)) (advance 1 0 s)).
Proof.
  intros H. unfold update_ahu, ahu_post, bind, gets, assign. simpl.
  destruct (vav_zone_temps (state s)) as [|t ts] eqn:E; [congruence|]. simpl.
  destruct (is_occupied (state s)); reflexivity.
Qed.

Lemma update_chiller_run (s : Sim) :
  update_chiller s
  = (Ok tt, with_state (chiller_post (random_source s 0%nat) (random_source s 1%nat) (state s))
              (advance 2 0 s)).
Proof.
  unfold update_chiller, chiller_post, bind, gets. simpl.
  destruct (Rltb 50 (ahu_cooling_valve (state s) * 100)); reflexivity.
Qed.

Lemma update_power_run (s : Sim) :
  update_power s
  = (Ok tt, with_state (power_post (random_source s 0%nat) (state s)) (advance 1 0 s)).
Proof.
  unfold update_power, power_post, bind, gets. simpl.
  destruct (is_occupied (state s)); reflexivity.
Qed.

Lemma six_zones_zone_post (k : nat) (u : R) (st : BuildingState) :
  six_zones st -> six_zones (zone_post k u st).
Proof.
  unfold six_zones, zone_post; simpl.
  now rewrite !length_list_update.
Qed.

(** One step of symbolic execution: the head of a [bind] is replaced by its
    result. *)
Ltac run_with lem :=
  erewrite bind_run by (apply lem; simpl; rewrite ?length_list_update; lia);
  simpl.

Lemma update_vavs_zone_run (k : nat) (s : Sim) :
  six_zones (state s) -> (k < 6)%nat ->
  update_vavs_zone (Z.of_nat k) s
  = (Ok tt, with_state (zone_post k (random_source s 0%nat) (state s)) (advance 1 0 s)).
Proof.
  intros (Ht & Hs & Hd & Hf & Hr) Hk.
  unfold update_vavs_zone.
  erewrite bind_run by reflexivity.
  erewrite bind_run by reflexivity. cbv zeta.
  do 3 run_with getitem_run.
  run_with setitem_run.
  run_with getitem_run.
  run_with setitem_run.
  do 2 run_with getitem_run.
  erewrite bind_run by reflexivity. simpl.
  run_with getitem_run.
  run_with setitem_run.
  do 2 run_with getitem_run.
  rewrite !nth_list_update_eq by lia.
  unfold zone_post.
  match goal with |- (if ?c then _ else _) _ = _ => destruct c eqn:Hc end.
  - run_with getitem_run.
    rewrite setitem_run by (simpl; lia). reflexivity.
  - run_with getitem_run.
    rewrite setitem_run by (simpl; lia). reflexivity.
Qed.

Lemma update_vavs_run (s : Sim) :
  six_zones (state s) ->
  update_vavs s
  = (Ok tt, with_state (vavs_post (random_source s) (state s)) (advance 6 0 s)).
Proof.
  intros H. unfold update_vavs, vavs_post, range. simpl seq. simpl map. simpl fold_left.
  unfold for_each.
  pose proof (update_vavs_zone_run 0) as E0.
  pose proof (update_vavs_zone_run 1) as E1.
  pose proof (update_vavs_zone_run 2) as E2.
  pose proof (update_vavs_zone_run 3) as E3.
  pose proof (update_vavs_zone_run 4) as E4.
  pose proof (update_vavs_zone_run 5) as E5.
  simpl Z.of_nat in *.
  erewrite bind_run by (apply E0; [assumption | lia]).
  erewrite bind_run by (apply E1; [simpl; now apply six_zones_zone_post | lia]).
  erewrite bind_run
    by (apply E2; [simpl; now repeat apply six_zones_zone_post | lia]).
  erewrite bind_run
    by (apply E3; [simpl; now repeat apply six_zones_zone_post | lia]).
  erewrite bind_run
    by (apply E4; [simpl; now repeat apply six_zones_zone_post | lia]).
  erewrite bind_run
    by (apply E5; [simpl; now repeat apply six_zones_zone_post | lia]).
  reflexivity.
Qed.

Lemma six_zones_vavs_post (us : nat -> R) (st : BuildingState) :
  six_zones st -> six_zones (vavs_post us st).
Proof.
  intros H; unfold vavs_post; simpl. now repeat apply six_zones_zone_post.
Qed.

Lemma six_zones_nonempty (st : BuildingState) : six_zones st -> vav_zone_temps st <> [].
Proof. intros (H & _) E; rewrite E in H; discriminate. Qed.

(** The straight-line loops keep the zone lists. *)
Lemma six_zones_occupancy_post now u st :
  six_zones st -> six_zones (occupancy_post now u st).
Proof. exact (fun H => H). Qed.

Lemma six_zones_outdoor_temp_post now u st :
  six_zones st -> six_zones (outdoor_temp_post now u st).
Proof. exact (fun H => H). Qed.

Lemma six_zones_ahu_post u st : six_zones st -> six_zones (ahu_post u st).
Proof. exact (fun H => H). Qed.

Lemma six_zones_chiller_post u1 u2 st :
  six_zones st -> six_zones (chiller_post u1 u2 st).
Proof. unfold chiller_post; destruct (Rltb 50 _); exact (fun H => H). Qed.

Lemma six_zones_power_post u st : six_zones st -> six_zones (power_post u st).
Proof. exact (fun H => H). Qed.

Lemma six_zones_tick_post (clk : nat -> datetime) (rnd : nat -> R) (st : BuildingState) :
  six_zones st -> six_zones (tick_post clk rnd st).
Proof.
  intros H. unfold tick_post.
  apply six_zones_power_post, six_zones_chiller_post, six_zones_vavs_post,
    six_zones_ahu_post, six_zones_outdoor_temp_post, six_zones_occupancy_post, H.
Qed.

(** [update] never raises on a state with six zones, and leaves [tick_post]. *)
Lemma update_run (s : Sim) :
  six_zones (state s) ->
  update s
  = (Ok tt, with_state (tick_post (clock s) (random_source s) (state s)) (advance 12 2 s)).
Proof.
  intros H. unfold update, tick_post.
  erewrite bind_run by apply update_occupancy_run.
  erewrite bind_run by apply update_outdoor_temp_run.
  erewrite bind_run by (apply update_ahu_run; apply six_zones_nonempty; exact H).
  erewrite bind_run by (apply update_vavs_run; exact H).
  erewrite bind_run by apply update_chiller_run.
  rewrite update_power_run.
  reflexivity.
Qed.

(** ** The actuator ranges are invariant (C1) *)

Lemma in_range_clamp (lo hi x : R) : lo <= hi -> in_range lo hi (Rmax lo (Rmin hi x)).
Proof.
  intros H; split.
  - apply Rmax_l.
  - apply Rmax_lub; [exact H | apply Rmin_l].
Qed.

Lemma in_range_nth (lo hi : R) (l : list R) (k : nat) :
  lo <= 0 <= hi -> Forall (in_range lo hi) l -> in_range lo hi (nth k l 0).
Proof.
  intros H0 Hl. destruct (Nat.lt_ge_cases k (length l)) as [Hk|Hk].
  - now apply Forall_nth.
  - rewrite nth_overflow by exact Hk. exact H0.
Qed.

(** The two arms of the reheat ramp stay within [0, 100]. *)
Lemma in_range_reheat_ramp (c : bool) (r : R) :
  in_range 0 100 r ->
  in_range 0 100 (if c then Rmin 100 (r + 5) else Rmax 0 (r - 5)).
Proof.
  intros [H0 H1]; destruct c; split.
  - apply Rmin_glb; lra.
  - apply Rmin_l.
  - apply Rmax_l.
  - apply Rmax_lub; lra.
Qed.

Lemma actuators_ahu_post (u : R) (st : BuildingState) :
  actuators_in_range st -> actuators_in_range (ahu_post u st).
Proof.
  intros (Hd & Hv & Hr). repeat split; try assumption.
  - apply Rmax_l.
  - apply Rmax_lub; [lra | apply Rmin_l].
Qed.

Lemma actuators_zone_post (k : nat) (u : R) (st : BuildingState) :
  actuators_in_range st -> actuators_in_range (zone_post k u st).
Proof.
  intros (Hd & Hv & Hr). split; [|split].
  - apply Forall_list_update; [exact Hd | apply in_range_clamp; lra].
  - exact Hv.
  - apply Forall_list_update; [exact Hr |].
    apply in_range_reheat_ramp, in_range_nth; [lra | exact Hr].
Qed.

Lemma actuators_vavs_post (us : nat -> R) (st : BuildingState) :
  actuators_in_range st -> actuators_in_range (vavs_post us st).
Proof.
  intros H; unfold vavs_post, seq, fold_left. now repeat apply actuators_zone_post.
Qed.

Lemma actuators_chiller_post (u1 u2 : R) (st : BuildingState) :
  actuators_in_range st -> actuators_in_range (chiller_post u1 u2 st).
Proof. unfold chiller_post; destruct (Rltb 50 _); exact (fun H => H). Qed.

Lemma actuators_tick_post (clk : nat -> datetime) (rnd : nat -> R) (st : BuildingState) :
  actuators_in_range st -> actuators_in_range (tick_post clk rnd st).
Proof.
  intros H. unfold tick_post.
  change (actuators_in_range
            (chiller_post (rnd 9%nat) (rnd 10%nat)
               (vavs_post (fun k => rnd (3 + k)%nat)
                  (ahu_post (rnd 2%nat)
                     (outdoor_temp_post (clk 1%nat) (rnd 1%nat)
                        (occupancy_post (clk 0%nat) (rnd 0%nat) st)))))).
  apply actuators_chiller_post, actuators_vavs_post, actuators_ahu_post, H.
Qed.

Lemma six_zones_init : six_zones BuildingState_init.
Proof. repeat split. Qed.

Lemma Forall_repeat {A : Type} (P : A -> Prop) (x : A) (n : nat) :
  P x -> Forall P (repeat x n).
Proof. intros H; induction n; simpl; constructor; auto. Qed.

Lemma actuators_init : actuators_in_range BuildingState_init.
Proof.
  split; [| split].
  - apply Forall_repeat. unfold in_range. lra.
  - unfold in_range. simpl. lra.
  - apply Forall_repeat. unfold in_range. lra.
Qed.

Lemma reachable_invariant (s : Sim) :
  reachable s -> six_zones (state s) /\ actuators_in_range (state s).
Proof.
  induction 1 as [s E | s s' _ [Hz Ha] Hrun].
  - rewrite E; split; [apply six_zones_init | apply actuators_init].
  - rewrite (update_run s Hz) in Hrun. injection Hrun as <-. split.
    + now apply six_zones_tick_post.
    + now apply actuators_tick_post.
Qed.

(** C1.  In every state reached from the default constructor by [update]
    ticks there are six zones, every damper position is in [20, 100], the AHU
    cooling valve is in [0, 100] and every reheat valve is in [0, 100]; and
    the next [update] does not raise. *)
Theorem C1_actuators_stay_in_range (s : Sim) :
  reachable s ->
  (forall k, (k < 6)%nat -> 20 <= nth k (vav_damper_positions (state s)) 0 <= 100) /\
  0 <= ahu_cooling_valve (state s) <= 100 /\
  (forall k, (k < 6)%nat -> 0 <= nth k (vav_reheat_valves (state s)) 0 <= 100) /\
  exists s', update s = (Ok tt, s') /\ reachable s'.
Proof.
  intros Hreach. destruct (reachable_invariant s Hreach) as [Hz (Hd & Hv & Hr)].
  pose proof Hz as (Ht & Hs & Hdl & Hf & Hrl).
  repeat split; try apply Hv.
  - apply (Forall_nth (in_range 20 100)); [exact Hd | lia].
  - apply (Forall_nth (in_range 20 100)); [exact Hd | lia].
  - apply (Forall_nth (in_range 0 100)); [exact Hr | lia].
  - apply (Forall_nth (in_range 0 100)); [exact Hr | lia].
  - eexists; split; [apply update_run, Hz |].
    eapply reachable_update; [exact Hreach | apply update_run, Hz].
Qed.

Lemma noon_process_1_reachable : reachable noon_process_1.
Proof.
  apply (reachable_update noon_process); [apply reachable_init; reflexivity |].
  exact (update_run noon_process six_zones_init).
Qed.

Lemma C1_witness :
  0 <= ahu_cooling_valve (state noon_process_1) <= 100.
Proof.
  exact (proj1 (proj2 (C1_actuators_stay_in_range _ noon_process_1_reachable))).
Defined.

(** ** Cumulative energy never decreases (C2) *)

Lemma fold_left_Rplus_le (l : list R) (a : R) :
  Forall (fun x => 0 <= x) l -> a <= fold_left Rplus l a.
Proof.
  intros H; revert a; induction H as [|x t Hx _ IH]; intros a; simpl; [lra|].
  apply Rle_trans with (a + x); [lra | apply IH].
Qed.

Lemma py_sum_nonneg (l : list R) : Forall (in_range 0 100) l -> 0 <= py_sum l.
Proof.
  intros H; apply fold_left_Rplus_le.
  eapply Forall_impl; [|exact H]. now intros x [Hx _].
Qed.

Lemma ahu_power_nonneg (fan : R) : 0 <= fan -> 0 <= ahu_power fan.
Proof.
  intros H; unfold ahu_power.
  apply Rmult_le_pos; [apply pow_le; lra | lra].
Qed.

(** Fields that the zone loop and the chiller loop do not assign. *)
Lemma vavs_post_frame (us : nat -> R) (st : BuildingState) :
  total_energy (vavs_post us st) = total_energy st /\
  ahu_fan_speed (vavs_post us st) = ahu_fan_speed st /\
  is_occupied (vavs_post us st) = is_occupied st /\
  ahu_mixed_air_temp (vavs_post us st) = ahu_mixed_air_temp st /\
  vav_zone_setpoints (vavs_post us st) = vav_zone_setpoints st.
Proof. repeat split. Qed.

Lemma chiller_post_frame (u1 u2 : R) (st : BuildingState) :
  total_energy (chiller_post u1 u2 st) = total_energy st /\
  ahu_fan_speed (chiller_post u1 u2 st) = ahu_fan_speed st /\
  is_occupied (chiller_post u1 u2 st) = is_occupied st /\
  ahu_mixed_air_temp (chiller_post u1 u2 st) = ahu_mixed_air_temp st /\
  vav_zone_setpoints (chiller_post u1 u2 st) = vav_zone_setpoints st /\
  vav_zone_temps (chiller_post u1 u2 st) = vav_zone_temps st /\
  vav_reheat_valves (chiller_post u1 u2 st) = vav_reheat_valves st /\
  ahu_cooling_valve (chiller_post u1 u2 st) = ahu_cooling_valve st.
Proof. unfold chiller_post; destruct (Rltb 50 _); repeat split. Qed.

(** The total power of a tick is positive when the fan runs forward and the
    valves are in range. *)
Lemma power_post_energy (u : R) (st : BuildingState) :
  0 <= u < 1 -> 0 <= ahu_fan_speed st -> actuators_in_range st ->
  total_energy st <= total_energy (power_post u st).
Proof.
  intros Hu Hfan (_ & Hv & Hr).
  change (total_energy (power_post u st))
    with (total_energy st
          + (ahu_power (ahu_fan_speed st) + chiller_power (ahu_cooling_valve st)
             + reheat_power (vav_reheat_valves st)
             + (if is_occupied st then 50 + (-5 + (5 - -5) * u)
                else 10 + (-2 + (2 - -2) * u))) * (INTERVAL / 3600)).
  pose proof (ahu_power_nonneg _ Hfan) as Hp.
  pose proof (py_sum_nonneg _ Hr) as Hs.
  destruct Hv as [Hv0 _].
  unfold chiller_power, reheat_power, INTERVAL.
  assert (0 <= (if is_occupied st then 50 + (-5 + (5 - -5) * u)
                else 10 + (-2 + (2 - -2) * u))) by (destruct (is_occupied st); lra).
  nra.
Qed.

Lemma tick_post_energy (clk : nat -> datetime) (rnd : nat -> R) (st : BuildingState) :
  (forall n, 0 <= rnd n < 1) -> actuators_in_range st ->
  total_energy st <= total_energy (tick_post clk rnd st).
Proof.
  intros Hrnd Hact. unfold tick_post.
  set (st3 := ahu_post (rnd 2%nat)
                (outdoor_temp_post (clk 1%nat) (rnd 1%nat)
                   (occupancy_post (clk 0%nat) (rnd 0%nat) st))).
  set (st4 := vavs_post (fun k => rnd (3 + k)%nat) st3).
  set (st5 := chiller_post (rnd 9%nat) (rnd 10%nat) st4).
  assert (Hact5 : actuators_in_range st5)
    by (apply actuators_chiller_post, actuators_vavs_post, actuators_ahu_post, Hact).
  assert (He : total_energy st5 = total_energy st).
  { unfold st5. rewrite (proj1 (chiller_post_frame _ _ st4)).
    unfold st4. rewrite (proj1 (vavs_post_frame _ st3)). reflexivity. }
  assert (Hfan : 0 <= ahu_fan_speed st5).
  { unfold st5. rewrite (proj1 (proj2 (chiller_post_frame _ _ st4))).
    unfold st4. rewrite (proj1 (proj2 (vavs_post_frame _ st3))).
    change (ahu_fan_speed st3)
      with ((if is_occupied (outdoor_temp_post (clk 1%nat) (rnd 1%nat)
                               (occupancy_post (clk 0%nat) (rnd 0%nat) st))
             then 75 else 40) + (-5 + (5 - -5) * rnd 2%nat)).
    specialize (Hrnd 2%nat). destruct (is_occupied _); lra. }
  rewrite <- He. apply power_post_energy; auto.
Qed.

(** C2.  From every reachable state whose random generator returns values in
    [0, 1), one more [update] returns normally and leaves [total_energy]
    greater than or equal to its previous value. *)
Theorem C2_energy_non_decreasing (s : Sim) :
  reachable s -> random_ok s ->
  exists s', update s = (Ok tt, s') /\
             total_energy (state s) <= total_energy (state s').
Proof.
  intros Hreach Hrnd. destruct (reachable_invariant s Hreach) as [Hz Ha].
  eexists; split; [apply update_run, Hz |].
  apply tick_post_energy; assumption.
Qed.

Lemma calm_noise_ok (clk : nat -> datetime) : random_ok (fresh_process calm_noise clk).
Proof. intros n; unfold calm_noise; simpl; lra. Qed.

Lemma C2_witness :
  exists s', update noon_process_1 = (Ok tt, s') /\
             total_energy (state noon_process_1) <= total_energy (state s').
Proof.
  apply C2_energy_non_decreasing.
  - exact noon_process_1_reachable.
  - intros n; change (0 <= 1 / 2 < 1); lra.
Defined.

(** ** Mixed-air temperature of the first tick (C4) *)

Lemma tick_post_is_occupied (clk : nat -> datetime) (rnd : nat -> R) (st : BuildingState) :
  is_occupied (tick_post clk rnd st)
  = is_occupied (occupancy_post (clk 0%nat) (rnd 0%nat) st).
Proof.
  unfold tick_post.
  change (is_occupied (power_post ?u ?x)) with (is_occupied x).
  rewrite (proj1 (proj2 (proj2 (chiller_post_frame _ _ _)))).
  rewrite (proj1 (proj2 (proj2 (vavs_post_frame _ _)))).
  reflexivity.
Qed.

(** [update] blends the return air of the previous state with the outdoor
    temperature it has just recomputed from the clock. *)
Lemma tick_post_mixed_air (clk : nat -> datetime) (rnd : nat -> R) (st : BuildingState) :
  ahu_mixed_air_temp (tick_post clk rnd st)
  = let outdoor_damper := if is_occupied (tick_post clk rnd st) then 20 else 10 in
    let outdoor := 75 + 15 * sin (IZR (hour (clk 1%nat) - 6) * PI / 12)
                   + (-2 + (2 - -2) * rnd 1%nat) in
    ahu_return_air_temp st * (100 - outdoor_damper) / 100
    + outdoor * outdoor_damper / 100.
Proof.
  rewrite tick_post_is_occupied. unfold tick_post.
  change (ahu_mixed_air_temp (power_post ?u ?x)) with (ahu_mixed_air_temp x).
  rewrite (proj1 (proj2 (proj2 (proj2 (chiller_post_frame _ _ _))))).
  rewrite (proj1 (proj2 (proj2 (proj2 (vavs_post_frame _ _))))).
  reflexivity.
Qed.

Lemma tick_post_outdoor_temp (clk : nat -> datetime) (rnd : nat -> R) (st : BuildingState) :
  outdoor_temp (tick_post clk rnd st)
  = 75 + 15 * sin (IZR (hour (clk 1%nat) - 6) * PI / 12) + (-2 + (2 - -2) * rnd 1%nat).
Proof.
  unfold tick_post, chiller_post. destruct (Rltb 50 _); reflexivity.
Qed.

Lemma Rltb_true (x y : R) : x < y -> Rltb x y = true.
Proof. intros H; unfold Rltb; destruct (Rlt_dec x y); [reflexivity | contradiction]. Qed.

Lemma Rltb_false (x y : R) : y <= x -> Rltb x y = false.
Proof. intros H; unfold Rltb; destruct (Rlt_dec x y); [lra | reflexivity]. Qed.

Lemma sin_noon : sin (IZR (12 - 6) * PI / 12) = 1.
Proof.
  replace (IZR (12 - 6) * PI / 12) with (PI / 2) by (simpl; lra).
  exact sin_PI2.
Qed.


(** C4, the claim fails.  Defaults, noise disabled (every draw 1/2), a Monday
    at noon: the tick leaves the building occupied, recomputes the outdoor
    temperature as 75 + 15 * sin(pi/2) = 90 and blends 72 * 0.8 + 90 * 0.2 =
    75.6, not 74.6. *)
Lemma C4_counterexample :
  exists s', update noon_process = (Ok tt, s') /\
             is_occupied (state s') = true /\
             outdoor_temp (state s') = 90 /\
             ahu_mixed_air_temp (state s') = 75.6 /\
             ahu_mixed_air_temp (state s') <> 74.6.
Proof.
  exists noon_process_1. split; [exact (update_run noon_process six_zones_init) |].
  assert (Hocc : is_occupied (state noon_process_1) = true).
  { unfold noon_process_1. change (state (with_state ?x ?y)) with x.
    rewrite tick_post_is_occupied.
    change (Rltb (1 / 2) 0.95 = true). apply Rltb_true. lra. }
  assert (Hmix : ahu_mixed_air_temp (state noon_process_1) = 75.6).
  { pose proof Hocc as Hocc'. unfold noon_process_1 in Hocc' |- *.
    change (state (with_state ?x ?y)) with x in Hocc' |- *.
    rewrite tick_post_mixed_air. cbv zeta. rewrite Hocc'.
    change (hour (clock noon_process 1%nat)) with 12%Z. rewrite sin_noon.
    change (ahu_return_air_temp (state noon_process)) with 72.
    change (random_source noon_process 1%nat) with (1 / 2). lra. }
  repeat split; [exact Hocc | | exact Hmix | rewrite Hmix; lra].
  unfold noon_process_1. change (state (with_state ?x ?y)) with x.
  rewrite tick_post_outdoor_temp.
  change (hour (clock noon_process 1%nat)) with 12%Z. rewrite sin_noon.
  change (random_source noon_process 1%nat) with (1 / 2). lra.
Qed.

(** C4, as amended.  From the defaults, with the noise of the outdoor
    temperature disabled, one [update] that leaves the building occupied
    yields the mixed-air temperature 72 * 0.8 + T * 0.2, where
    T = 75 + 15 * sin((hour - 6) * pi / 12) is the outdoor temperature that
    the tick recomputes from the clock.  The value 74.6 = 72 * 0.8 + 85 * 0.2
    is what [update_ahu] alone yields on the defaults, where the outdoor
    temperature is still 85. *)
Theorem C4_mixed_air_first_tick (s : Sim) :
  state s = BuildingState_init ->
  random_source s 1%nat = 1 / 2 ->
  (exists s', update s = (Ok tt, s') /\
     (is_occupied (state s') = true ->
      ahu_mixed_air_temp (state s')
      = 72 * 0.8 + (75 + 15 * sin (IZR (hour (clock s 1%nat) - 6) * PI / 12)) * 0.2)) /\
  (exists s', update_ahu s = (Ok tt, s') /\ ahu_mixed_air_temp (state s') = 74.6).
Proof.
  intros Hst Hnoise. split.
  - eexists; split; [apply update_run; rewrite Hst; apply six_zones_init |].
    change (state (with_state ?x ?y)) with x. intros Hocc.
    rewrite tick_post_mixed_air. cbv zeta. rewrite Hocc, Hnoise, Hst.
    change (ahu_return_air_temp BuildingState_init) with 72. lra.
  - eexists; split; [apply update_ahu_run; rewrite Hst; discriminate |].
    change (state (with_state ?x ?y)) with x. rewrite Hst.
    change (ahu_mixed_air_temp (ahu_post ?u BuildingState_init))
      with (72 * (100 - 20) / 100 + 85 * 20 / 100).
    lra.
Qed.

Lemma C4_witness :
  (exists s', update noon_process = (Ok tt, s') /\
     (is_occupied (state s') = true ->
      ahu_mixed_air_temp (state s')
      = 72 * 0.8 + (75 + 15 * sin (IZR (hour (clock noon_process 1%nat) - 6) * PI / 12))
                   * 0.2)) /\
  (exists s', update_ahu noon_process = (Ok tt, s') /\
     ahu_mixed_air_temp (state s') = 74.6).
Proof.
  apply C4_mixed_air_first_tick; reflexivity.
Defined.

(** ** The reheat ramp (C7) *)

(** Zone [k] only writes slot [k] of the zone lists. *)
Lemma zone_post_temps_other (j k : nat) (u : R) (st : BuildingState) :
  j <> k -> nth j (vav_zone_temps (zone_post k u st)) 0 = nth j (vav_zone_temps st) 0.
Proof. intros H. exact (nth_list_update_neq _ _ _ _ _ H). Qed.


Lemma zone_post_setpoints (k : nat) (u : R) (st : BuildingState) :
  vav_zone_setpoints (zone_post k u st) = vav_zone_setpoints st.
Proof. reflexivity. Qed.



Lemma power_post_lists (u : R) (st : BuildingState) :
  vav_zone_temps (power_post u st) = vav_zone_temps st /\
  vav_reheat_valves (power_post u st) = vav_reheat_valves st /\
  vav_zone_setpoints (power_post u st) = vav_zone_setpoints st.
Proof. repeat split. Qed.

Lemma tick_post_zone_lists (clk : nat -> datetime) (rnd : nat -> R) (st : BuildingState) :
  let st3 := ahu_post (rnd 2%nat)
               (outdoor_temp_post (clk 1%nat) (rnd 1%nat)
                  (occupancy_post (clk 0%nat) (rnd 0%nat) st)) in
  let st4 := vavs_post (fun k => rnd (3 + k)%nat) st3 in
  vav_zone_temps (tick_post clk rnd st) = vav_zone_temps st4 /\
  vav_reheat_valves (tick_post clk rnd st) = vav_reheat_valves st4 /\
  vav_zone_setpoints (tick_post clk rnd st) = vav_zone_setpoints st.
Proof.
  cbv zeta. unfold tick_post.
  destruct (power_post_lists (rnd 11%nat)
              (chiller_post (rnd 9%nat) (rnd 10%nat)
                 (vavs_post (fun k => rnd (3 + k)%nat)
                    (ahu_post (rnd 2%nat)
                       (outdoor_temp_post (clk 1%nat) (rnd 1%nat)
                          (occupancy_post (clk 0%nat) (rnd 0%nat) st))))))
    as (-> & -> & ->).
  destruct (chiller_post_frame (rnd 9%nat) (rnd 10%nat)
              (vavs_post (fun k => rnd (3 + k)%nat)
                 (ahu_post (rnd 2%nat)
                    (outdoor_temp_post (clk 1%nat) (rnd 1%nat)
                       (occupancy_post (clk 0%nat) (rnd 0%nat) st)))))
    as (_ & _ & _ & _ & -> & -> & -> & _).
  rewrite (proj2 (proj2 (proj2 (proj2 (vavs_post_frame _ _))))).
  repeat split.
Qed.






Lemma zone_post_temps_own (k : nat) (u : R) (st : BuildingState) :
  six_zones st -> (k < 6)%nat ->
  nth k (vav_zone_temps (zone_post k u st)) 0 = zone_temp_post k u st.
Proof.
  intros (Ht & _) Hk. unfold zone_post. cbv zeta.
  change (vav_zone_temps (set_vav_reheat_valves ?l (set_vav_zone_temps ?t ?x))) with t.
  rewrite nth_list_update_eq by lia. reflexivity.
Qed.

(** Slot [j] of the lists that decide the temperature of zone [j] is not
    touched by another zone. *)
Lemma zone_temp_post_other (j k : nat) (u v : R) (st : BuildingState) :
  j <> k -> zone_temp_post j u (zone_post k v st) = zone_temp_post j u st.
Proof.
  intros H. unfold zone_temp_post.
  rewrite zone_post_temps_other by exact H.
  change (vav_damper_positions (zone_post k v st))
    with (list_update (vav_damper_positions st) k
            (Rmax 20 (Rmin 100 (nth k (vav_damper_positions st) 0
               + (nth k (vav_zone_temps st) 0 - nth k (vav_zone_setpoints st) 0) * 3)))).
  rewrite nth_list_update_neq by exact H.
  reflexivity.
Qed.

Lemma vavs_post_temps (us : nat -> R) (st : BuildingState) (k : nat) :
  six_zones st -> (k < 6)%nat ->
  nth k (vav_zone_temps (vavs_post us st)) 0 = zone_temp_post k (us k) st.
Proof.
  intros Hz Hk. unfold vavs_post, seq, fold_left.
  destruct k as [|[|[|[|[|[|k]]]]]]; try lia;
    rewrite ?zone_post_temps_other by lia;
    (rewrite zone_post_temps_own; [| now repeat apply six_zones_zone_post | lia]);
    rewrite ?zone_temp_post_other by lia;
    reflexivity.
Qed.




(** ** Fan power (C8) *)

Lemma tick_post_power (clk : nat -> datetime) (rnd : nat -> R) (st : BuildingState) :
  let st' := tick_post clk rnd st in
  total_power st'
  = (ahu_fan_speed st' / 100) ^ 3 * 15
    + chiller_power (ahu_cooling_valve st')
    + reheat_power (vav_reheat_valves st')
    + (if is_occupied st' then 50 + (-5 + (5 - -5) * rnd 11%nat)
       else 10 + (-2 + (2 - -2) * rnd 11%nat)).
Proof. reflexivity. Qed.

(** C8.  In every tick the total power is the sum of the fan power
    (fan_speed / 100)^3 * 15, the chiller power, the reheat power and the
    miscellaneous load, the fan speed being that of the same tick; at fan
    speed 100 the fan power is 15. *)
Theorem C8_fan_power (s : Sim) :
  six_zones (state s) ->
  (exists s', update s = (Ok tt, s') /\
     total_power (state s')
     = (ahu_fan_speed (state s') / 100) ^ 3 * 15
       + chiller_power (ahu_cooling_valve (state s'))
       + reheat_power (vav_reheat_valves (state s'))
       + (if is_occupied (state s') then 50 + (-5 + (5 - -5) * random_source s 11%nat)
          else 10 + (-2 + (2 - -2) * random_source s 11%nat))) /\
  (forall fan, ahu_power fan = (fan / 100) ^ 3 * 15) /\
  ahu_power 100 = 15.
Proof.
  intros Hz. split; [| split].
  - eexists; split; [apply update_run, Hz |].
    change (state (with_state ?x ?y)) with x. apply tick_post_power.
  - reflexivity.
  - unfold ahu_power. lra.
Qed.

Lemma C8_witness :
  (exists s', update noon_process = (Ok tt, s') /\
     total_power (state s')
     = (ahu_fan_speed (state s') / 100) ^ 3 * 15
       + chiller_power (ahu_cooling_valve (state s'))
       + reheat_power (vav_reheat_valves (state s'))
       + (if is_occupied (state s')
          then 50 + (-5 + (5 - -5) * random_source noon_process 11%nat)
          else 10 + (-2 + (2 - -2) * random_source noon_process 11%nat))) /\
  (forall fan, ahu_power fan = (fan / 100) ^ 3 * 15) /\
  ahu_power 100 = 15.
Proof. exact (C8_fan_power noon_process six_zones_init). Defined.

(** ** Point synchronisation (C3, C10) *)

(** A list of known length is a list of that many elements. *)
Ltac explicit_list l H :=
  repeat (destruct l as [|? l]; simpl in H; try discriminate H; try lia); clear H.

(** [AHUProfile.update_objects] on nine points whose setpoint point holds the
    float [sp]; for points 5 and 6, the values that the profile assigns. *)
Lemma AHU_update_objects_run (s : Sim) (sp : R) :
  length (objects s) = 9%nat ->
  option_map presentValue (nth_error (objects s) 4) = Some (Real sp) ->
  exists s', AHUProfile.update_objects s = (Ok tt, s') /\
    state s' = set_ahu_supply_air_setpoint sp (state s) /\
    option_map presentValue (nth_error (objects s') 5)
    = Some (Real (ahu_fan_speed (state s))) /\
    option_map presentValue (nth_error (objects s') 6)
    = Some (Real (ahu_cooling_valve (state s))).
Proof.
  intros Hlen H4.
  destruct s as [app st et pr objs rs clk lg sl]. simpl in *.
  explicit_list objs Hlen. simpl in H4. injection H4 as H4.
  eexists. split.
  { unfold AHUProfile.update_objects.
    do 9 erewrite bind_run by reflexivity.
    cbv beta. rewrite H4.
    do 5 erewrite bind_run by reflexivity.
    reflexivity. }
  repeat split.
Qed.

(** [VAVProfile.update_objects] on six points whose setpoint point holds the
    float [sp]. *)
Lemma VAV_update_objects_run (s : Sim) (k : nat) (sp : R) :
  (k < 6)%nat -> six_zones (state s) ->
  length (objects s) = 6%nat ->
  option_map presentValue (nth_error (objects s) 1) = Some (Real sp) ->
  exists s', VAVProfile.update_objects (Z.of_nat k) s = (Ok tt, s') /\
    state s' = set_vav_zone_setpoints
                 (list_update (vav_zone_setpoints (state s)) k sp) (state s).
Proof.
  intros Hk (Ht & Hs & Hd & Hf & Hr) Hlen H1.
  destruct s as [app st et pr objs rs clk lg sl]. simpl in *.
  explicit_list objs Hlen. simpl in H1. injection H1 as H1.
  eexists. split.
  { unfold VAVProfile.update_objects.
    run_with getitem_run.
    do 2 erewrite bind_run by reflexivity.
    cbv beta. rewrite H1.
    erewrite bind_run by reflexivity.
    run_with setitem_run.
    run_with getitem_run. erewrite bind_run by reflexivity.
    run_with getitem_run. erewrite bind_run by reflexivity.
    run_with getitem_run. erewrite bind_run by reflexivity.
    erewrite bind_run by reflexivity.
    reflexivity. }
  reflexivity.
Qed.

Lemma external_write_spec (k : nat) (v : PropertyValue) (s : Sim) :
  (k < length (objects s))%nat ->
  state (external_write k v s) = state s /\
  length (objects (external_write k v s)) = length (objects s) /\
  option_map presentValue (nth_error (objects (external_write k v s)) k) = Some v /\
  forall j, j <> k ->
    nth_error (objects (external_write k v s)) j = nth_error (objects s) j.
Proof.
  intros Hk. unfold external_write.
  destruct (nth_error (objects s) k) as [o|] eqn:E.
  2:{ apply nth_error_None in E. lia. }
  change (objects (with_objects ?l ?x)) with l.
  repeat split.
  - apply length_list_update.
  - clear E. revert k Hk. induction (objects s) as [|h t IH]; intros [|k] Hk;
      simpl in *; try lia; auto. apply IH; lia.
  - intros j Hj. clear E Hk. revert j k Hj.
    induction (objects s) as [|h t IH]; intros [|j] [|k] Hj; simpl; auto; lia.
Qed.

(** C3.  After a value [v] has been written into the setpoint point of the
    AHU (point 4 of 9) or of a zone (point 1 of 6), [update_objects] returns
    normally and the bound BuildingState setpoint is exactly [v]. *)
Theorem C3_setpoint_round_trip (s : Sim) (v : R) :
  (length (objects s) = 9%nat ->
   exists s', update_objects AHU (external_write 4 (Real v) s) = (Ok tt, s') /\
              ahu_supply_air_setpoint (state s') = v) /\
  (forall (zone_index floor : Z) (zone_name : string),
     (0 <= zone_index < 6)%Z -> six_zones (state s) -> length (objects s) = 6%nat ->
     exists s', update_objects (VAV zone_index floor zone_name)
                  (external_write 1 (Real v) s) = (Ok tt, s') /\
                list_getitem (vav_zone_setpoints (state s')) zone_index = Some v).
Proof.
  split.
  - intros Hlen.
    destruct (external_write_spec 4 (Real v) s ltac:(lia)) as (Hst & Hl & Hv & _).
    destruct (AHU_update_objects_run (external_write 4 (Real v) s) v)
      as (s' & Hrun & Hs' & _); [lia | exact Hv |].
    exists s'; split; [exact Hrun |]. now rewrite Hs'.
  - intros zone_index floor zone_name Hzi Hz Hlen.
    destruct (external_write_spec 1 (Real v) s ltac:(lia)) as (Hst & Hl & Hv & _).
    assert (Hk : (Z.to_nat zone_index < 6)%nat) by lia.
    assert (Ezk : zone_index = Z.of_nat (Z.to_nat zone_index)) by lia.
    revert Hk Ezk. generalize (Z.to_nat zone_index) as k. intros k Hk ->.
    destruct (VAV_update_objects_run (external_write 1 (Real v) s) k v)
      as (s' & Hrun & Hs'); [lia | now rewrite Hst | lia | exact Hv |].
    exists s'; split; [exact Hrun |]. rewrite Hs', Hst.
    change (vav_zone_setpoints (set_vav_zone_setpoints ?l ?x)) with l.
    destruct Hz as (_ & Hsl & _).
    rewrite (list_getitem_nat _ _ 0) by (rewrite length_list_update; lia).
    now rewrite nth_list_update_eq by lia.
Qed.

Lemma C3_witness :
  (exists s', update_objects AHU (external_write 4 (Real 60) ahu_simulator) = (Ok tt, s') /\
              ahu_supply_air_setpoint (state s') = 60) /\
  (exists s', update_objects (VAV 3 2 "South")
                (external_write 1 (Real 70) vav3_simulator) = (Ok tt, s') /\
              list_getitem (vav_zone_setpoints (state s')) 3 = Some 70).
Proof.
  split.
  - apply (proj1 (C3_setpoint_round_trip ahu_simulator 60)). reflexivity.
  - apply (proj2 (C3_setpoint_round_trip vav3_simulator 70)).
    + lia.
    + exact six_zones_init.
    + reflexivity.
Defined.

(** *** The frame of [update_objects] *)

Section Frame.

Variable rel : BuildingState -> BuildingState -> Prop.
Hypothesis rel_refl : forall st, rel st st.
Hypothesis rel_trans : forall a b c, rel a b -> rel b c -> rel a c.

Lemma frame_bind {A B : Type} (m : M A) (f : A -> M B) :
  state_frame rel m -> (forall a, state_frame rel (f a)) -> state_frame rel (bind m f).
Proof.
  intros Hm Hf s. unfold bind. specialize (Hm s).
  destruct (m s) as [[a|e] s1]; simpl in *.
  - eapply rel_trans; [exact Hm | apply Hf].
  - exact Hm.
Qed.

Lemma frame_ret {A : Type} (a : A) : state_frame rel (ret a).
Proof. intros s; apply rel_refl. Qed.

Lemma frame_raise {A : Type} (e : exn) : state_frame rel (@raise A e).
Proof. intros s; apply rel_refl. Qed.

Lemma frame_gets {A : Type} (f : BuildingState -> A) : state_frame rel (gets f).
Proof. intros s; apply rel_refl. Qed.

Lemma frame_getitem (field : BuildingState -> list R) (i : Z) :
  state_frame rel (getitem field i).
Proof.
  intros s. unfold getitem, bind, gets.
  destruct (list_getitem (field (state s)) i); apply rel_refl.
Qed.

Lemma frame_get_presentValue (k : Z) : state_frame rel (get_presentValue k).
Proof.
  intros s. unfold get_presentValue, bind, get_sim.
  destruct (list_getitem (objects s) k); apply rel_refl.
Qed.

Lemma frame_put_presentValue (k : Z) (v : PropertyValue) :
  state_frame rel (put_presentValue k v).
Proof.
  intros s. unfold put_presentValue, bind, get_sim.
  destruct (list_getitem (objects s) k); [| apply rel_refl].
  destruct (list_setitem (objects s) k _); apply rel_refl.
Qed.

Lemma frame_as_float (v : PropertyValue) : state_frame rel (as_float v).
Proof. intros s; destruct v; apply rel_refl. Qed.

Lemma frame_random_uniform (a b : R) : state_frame rel (random_uniform a b).
Proof. intros s; apply rel_refl. Qed.

End Frame.

Lemma ahu_setpoint_only_refl (st : BuildingState) : ahu_setpoint_only st st.
Proof. destruct st; reflexivity. Qed.

Lemma ahu_setpoint_only_trans (a b c : BuildingState) :
  ahu_setpoint_only a b -> ahu_setpoint_only b c -> ahu_setpoint_only a c.
Proof.
  unfold ahu_setpoint_only; intros Hab Hbc.
  rewrite Hbc at 1. rewrite Hab. reflexivity.
Qed.

Lemma zone_setpoint_only_refl (z : Z) (st : BuildingState) : zone_setpoint_only z st st.
Proof. split; [destruct st; reflexivity | split; reflexivity]. Qed.

Lemma zone_setpoint_only_trans (z : Z) (a b c : BuildingState) :
  zone_setpoint_only z a b -> zone_setpoint_only z b c -> zone_setpoint_only z a c.
Proof.
  intros (Hab & Lab & Nab) (Hbc & Lbc & Nbc). split; [| split].
  - rewrite Hbc at 1. rewrite Hab. reflexivity.
  - congruence.
  - intros j Hj. rewrite Nbc by (rewrite Lab; exact Hj). now apply Nab.
Qed.

Lemma nth_error_list_update_neq {A : Type} (l : list A) (j k : nat) (v : A) :
  j <> k -> nth_error (list_update l k v) j = nth_error l j.
Proof.
  revert j k; induction l as [|h t IH]; intros [|j] [|k] H; simpl; auto; lia.
Qed.

Lemma frame_assign_ahu_setpoint (v : R) :
  state_frame ahu_setpoint_only (assign set_ahu_supply_air_setpoint v).
Proof. intros s; reflexivity. Qed.

Lemma frame_setitem_zone_setpoint (z : Z) (v : R) :
  state_frame (zone_setpoint_only z)
    (setitem vav_zone_setpoints set_vav_zone_setpoints z v).
Proof.
  intros s. unfold setitem, bind, gets, list_setitem.
  destruct (py_index (length (vav_zone_setpoints (state s))) z) as [k|] eqn:E.
  - simpl. split; [reflexivity | split].
    + apply length_list_update.
    + intros j Hj. apply nth_error_list_update_neq. congruence.
  - apply zone_setpoint_only_refl.
Qed.

(** One step through a computation built from the primitives above. *)
Ltac frame_step refl trans :=
  lazymatch goal with
  | |- state_frame _ (bind _ _) => apply (frame_bind _ trans); [| intros ?]
  | |- state_frame _ (gets _) => apply frame_gets; exact refl
  | |- state_frame _ (getitem _ _) => apply frame_getitem; exact refl
  | |- state_frame _ (put_presentValue _ _) => apply frame_put_presentValue; exact refl
  | |- state_frame _ (get_presentValue _) => apply frame_get_presentValue; exact refl
  | |- state_frame _ (as_float _) => apply frame_as_float; exact refl
  | |- state_frame _ (random_uniform _ _) => apply frame_random_uniform; exact refl
  | |- state_frame _ (assign set_ahu_supply_air_setpoint _) =>
      apply frame_assign_ahu_setpoint
  | |- state_frame _ (setitem vav_zone_setpoints set_vav_zone_setpoints _ _) =>
      apply frame_setitem_zone_setpoint
  end.

Lemma AHU_update_objects_frame :
  state_frame ahu_setpoint_only AHUProfile.update_objects.
Proof.
  unfold AHUProfile.update_objects.
  repeat frame_step ahu_setpoint_only_refl ahu_setpoint_only_trans.
Qed.

Lemma VAV_update_objects_frame (z : Z) :
  state_frame (zone_setpoint_only z) (VAVProfile.update_objects z).
Proof.
  unfold VAVProfile.update_objects.
  repeat frame_step (zone_setpoint_only_refl z) (zone_setpoint_only_trans z).
Qed.

Lemma Chiller_update_objects_frame : state_frame eq ChillerProfile.update_objects.
Proof.
  unfold ChillerProfile.update_objects.
  repeat frame_step (@eq_refl BuildingState) (@eq_trans BuildingState).
Qed.

Lemma Meter_update_objects_frame : state_frame eq MeterProfile.update_objects.
Proof.
  unfold MeterProfile.update_objects.
  repeat frame_step (@eq_refl BuildingState) (@eq_trans BuildingState).
Qed.

(** C10.  Whether it returns or raises, [update_objects] leaves every
    BuildingState field as it was, except: for the AHU the supply-air
    setpoint, for a zone the slot [zone_index] of the zone setpoints.  The
    chiller and the meter leave BuildingState unchanged. *)
Theorem C10_update_objects_frame (s : Sim) :
  (let st' := state (snd (update_objects AHU s)) in
   st' = set_ahu_supply_air_setpoint (ahu_supply_air_setpoint st') (state s)) /\
  (forall (zone_index floor : Z) (zone_name : string),
     let st' := state (snd (update_objects (VAV zone_index floor zone_name) s)) in
     st' = set_vav_zone_setpoints (vav_zone_setpoints st') (state s) /\
     forall j, py_index (length (vav_zone_setpoints (state s))) zone_index <> Some j ->
       nth_error (vav_zone_setpoints st') j = nth_error (vav_zone_setpoints (state s)) j) /\
  state (snd (update_objects Chiller s)) = state s /\
  state (snd (update_objects Meter s)) = state s.
Proof.
  split; [| split; [| split]].
  - exact (AHU_update_objects_frame s).
  - intros zone_index floor zone_name.
    destruct (VAV_update_objects_frame zone_index s) as (H1 & _ & H2).
    split; [exact H1 | exact H2].
  - symmetry. exact (Chiller_update_objects_frame s).
  - symmetry. exact (Meter_update_objects_frame s).
Qed.

Lemma C10_witness :
  nth_error (vav_zone_setpoints
               (state (snd (update_objects (VAV 3 2 "South")
                              (external_write 1 (Real 70) vav3_simulator))))) 0
  = nth_error (vav_zone_setpoints (state (external_write 1 (Real 70) vav3_simulator))) 0.
Proof.
  apply (proj2 (proj1 (proj2 (C10_update_objects_frame
                                (external_write 1 (Real 70) vav3_simulator))) 3%Z 2%Z
                  "South"%string)).
  discriminate.
Defined.

(** ** The running loop (C6) *)

Lemma update_loop_iteration_raise (s s1 : Sim) (e : exn) :
  update_loop_body s = (Raise e, s1) ->
  update_loop_iteration s
  = (Ok tt, with_sleeps (S (sleeps s1)) (with_log (log s1 ++ [ErrorInLoop e]) s1)).
Proof.
  intros H. unfold update_loop_iteration, try_except, bind. rewrite H. reflexivity.
Qed.

Lemma update_loop_iteration_ok (s s1 : Sim) :
  update_loop_body s = (Ok tt, s1) ->
  update_loop_iteration s = (Ok tt, with_sleeps (S (sleeps s1)) s1).
Proof.
  intros H. unfold update_loop_iteration, try_except, bind. rewrite H. reflexivity.
Qed.

Lemma update_loop_iteration_total (s : Sim) :
  exists s', update_loop_iteration s = (Ok tt, s') /\ sleeps s' = S (sleeps (snd (update_loop_body s))).
Proof.
  destruct (update_loop_body s) as [[[]|e] s1] eqn:E.
  - rewrite (update_loop_iteration_ok _ _ E). eexists; split; reflexivity.
  - rewrite (update_loop_iteration_raise _ _ _ E). eexists; split; reflexivity.
Qed.

(** C6.  Every iteration of the loop returns normally and reaches the sleep,
    so any number of iterations runs to the end whatever is raised in them.
    When the block of an iteration raises [e] in the state [s1], the
    iteration ends in [s1] with the error logged and the sleep counted:
    what was changed before the exception is kept. *)
Theorem C6_loop_survives_exceptions :
  (forall (n : nat) (s : Sim), exists s', update_loop n s = (Ok tt, s')) /\
  (forall (s s1 : Sim) (e : exn),
     update_loop_body s = (Raise e, s1) ->
     update_loop_iteration s
     = (Ok tt, with_sleeps (S (sleeps s1)) (with_log (log s1 ++ [ErrorInLoop e]) s1))).
Proof.
  split.
  - induction n as [|n IH]; intros s.
    + exists s; reflexivity.
    + destruct (update_loop_iteration_total s) as (s1 & H1 & _).
      destruct (IH s1) as (s' & Hs').
      exists s'. simpl. now rewrite (bind_run _ _ _ _ _ H1).
  - exact update_loop_iteration_raise.
Qed.

(** A process whose profile was never set: the physics runs, then reading
    [self.profile] raises. *)
Lemma noon_process_body_raises :
  update_loop_body noon_process = (Raise AttributeError, noon_process_1).
Proof.
  unfold update_loop_body.
  rewrite (bind_run _ _ _ _ _ (update_run noon_process six_zones_init)).
  reflexivity.
Qed.

Lemma C6_witness :
  update_loop_iteration noon_process
  = (Ok tt, with_sleeps (S (sleeps noon_process_1))
              (with_log (log noon_process_1 ++ [ErrorInLoop AttributeError])
                 noon_process_1)).
Proof.
  apply (proj2 C6_loop_survives_exceptions).
  exact noon_process_body_raises.
Defined.

(** ** Equipment selection (C5) *)

(** The nine documented selectors construct the matching profile and
    register its points. *)
Lemma init_documented_selectors (rnd : nat -> R) (clk : nat -> datetime) :
  let built (e : string) :=
    let '(r, s) := BuildingSimulator_init e (fresh_process rnd clk) in
    (r, profile s, length (objects s), length (app_objects s)) in
  built "ahu"%string = (Ok tt, Some AHU, 9%nat, 9%nat) /\
  built "vav0"%string = (Ok tt, Some (VAV 0 1 "North"), 6%nat, 6%nat) /\
  built "vav1"%string = (Ok tt, Some (VAV 1 1 "South"), 6%nat, 6%nat) /\
  built "vav2"%string = (Ok tt, Some (VAV 2 2 "North"), 6%nat, 6%nat) /\
  built "vav3"%string = (Ok tt, Some (VAV 3 2 "South"), 6%nat, 6%nat) /\
  built "vav4"%string = (Ok tt, Some (VAV 4 3 "North"), 6%nat, 6%nat) /\
  built "vav5"%string = (Ok tt, Some (VAV 5 3 "South"), 6%nat, 6%nat) /\
  built "chiller"%string = (Ok tt, Some Chiller, 4%nat, 4%nat) /\
  built "meter"%string = (Ok tt, Some Meter, 3%nat, 3%nat).
Proof. cbv zeta. repeat split. Qed.

(** A selector that is none of ["ahu"], ["chiller"], ["meter"] and does not
    start with ["vav"] is rejected before any profile or point exists. *)
Lemma init_unknown_selector (e : string) (s : Sim) :
  String.eqb e "ahu" = false -> startswith "vav" e = false ->
  String.eqb e "chiller" = false -> String.eqb e "meter" = false ->
  BuildingSimulator_init e s
  = (Raise (ValueError ("Unknown equipment type: " ++ e)%string),
     with_objects [] (with_equipment_type e
       (with_state BuildingState_init (with_app_objects [] s)))).
Proof.
  intros H1 H2 H3 H4. unfold BuildingSimulator_init.
  do 4 erewrite bind_run by reflexivity.
  rewrite H1, H2, H3, H4. reflexivity.
Qed.

(** C5, the code departs from the claim.  The selector ["vav05"] is not one
    of the nine documented ones, yet the constructor returns normally: it
    builds the profile of zone 5 and creates and registers its six points. *)
Theorem C5_vav05_is_accepted (rnd : nat -> R) (clk : nat -> datetime) :
  exists s,
    BuildingSimulator_init "vav05"%string (fresh_process rnd clk) = (Ok tt, s) /\
    profile s = Some (VAV 5 3 "South") /\
    length (objects s) = 6%nat /\
    app_objects s = [(analogInput, 51%Z); (analogValue, 51%Z); (analogOutput, 51%Z);
                     (analogInput, 52%Z); (analogOutput, 52%Z); (binaryInput, 51%Z)].
Proof. eexists. split; [reflexivity | repeat split]. Qed.

(** * Further properties of the control loops *)

Lemma noon_random_ok : random_ok noon_process.
Proof. intros n; change (0 <= 1 / 2 < 1); lra. Qed.

(** What the air-handler stage of a tick leaves, in terms of the state
    before the tick. *)
Lemma ahu_stage_fields (clk : nat -> datetime) (rnd : nat -> R) (st : BuildingState) :
  let occupied := is_occupied (occupancy_post (clk 0%nat) (rnd 0%nat) st) in
  let outdoor := 75 + 15 * sin (IZR (hour (clk 1%nat) - 6) * PI / 12)
                 + (-2 + (2 - -2) * rnd 1%nat) in
  let outdoor_damper := if occupied then 20 else 10 in
  let mixed := ahu_return_air_temp st * (100 - outdoor_damper) / 100
               + outdoor * outdoor_damper / 100 in
  let valve := Rmax 0 (Rmin 100 (ahu_cooling_valve st
                 + (ahu_supply_air_temp st - ahu_supply_air_setpoint st) * 2)) in
  let fan := (if occupied then 75 else 40) + (-5 + (5 - -5) * rnd 2%nat) in
  let st3 := ahu_post (rnd 2%nat)
               (outdoor_temp_post (clk 1%nat) (rnd 1%nat)
                  (occupancy_post (clk 0%nat) (rnd 0%nat) st)) in
  is_occupied st3 = occupied /\
  outdoor_temp st3 = outdoor /\
  ahu_mixed_air_temp st3 = mixed /\
  ahu_cooling_valve st3 = valve /\
  ahu_supply_air_temp st3 = mixed - valve * 0.3 /\
  ahu_return_air_temp st3
  = py_sum (vav_zone_temps st) / INR (length (vav_zone_temps st)) /\
  ahu_fan_speed st3 = fan /\
  ahu_supply_air_flow st3 = fan * 160.
Proof. cbv zeta. repeat split. Qed.

(** The zone, chiller and power stages leave the air-handler fields, the
    environment fields and the setpoints alone. *)
Lemma late_stages_frame (us : nat -> R) (u9 u10 u11 : R) (st3 : BuildingState) :
  let st' := power_post u11 (chiller_post u9 u10 (vavs_post us st3)) in
  is_occupied st' = is_occupied st3 /\
  outdoor_temp st' = outdoor_temp st3 /\
  ahu_mixed_air_temp st' = ahu_mixed_air_temp st3 /\
  ahu_cooling_valve st' = ahu_cooling_valve st3 /\
  ahu_supply_air_temp st' = ahu_supply_air_temp st3 /\
  ahu_return_air_temp st' = ahu_return_air_temp st3 /\
  ahu_fan_speed st' = ahu_fan_speed st3 /\
  ahu_supply_air_flow st' = ahu_supply_air_flow st3 /\
  ahu_supply_air_setpoint st' = ahu_supply_air_setpoint st3 /\
  ahu_heating_valve st' = ahu_heating_valve st3 /\
  hot_water_supply_temp st' = hot_water_supply_temp st3 /\
  hot_water_return_temp st' = hot_water_return_temp st3.
Proof.
  cbv zeta. unfold chiller_post. destruct (Rltb 50 _); repeat split.
Qed.

(** The fields of the state after a tick that the air handler decides. *)
Lemma tick_post_ahu_fields (clk : nat -> datetime) (rnd : nat -> R) (st : BuildingState) :
  let occupied := is_occupied (occupancy_post (clk 0%nat) (rnd 0%nat) st) in
  let outdoor := 75 + 15 * sin (IZR (hour (clk 1%nat) - 6) * PI / 12)
                 + (-2 + (2 - -2) * rnd 1%nat) in
  let outdoor_damper := if occupied then 20 else 10 in
  let mixed := ahu_return_air_temp st * (100 - outdoor_damper) / 100
               + outdoor * outdoor_damper / 100 in
  let valve := Rmax 0 (Rmin 100 (ahu_cooling_valve st
                 + (ahu_supply_air_temp st - ahu_supply_air_setpoint st) * 2)) in
  let fan := (if occupied then 75 else 40) + (-5 + (5 - -5) * rnd 2%nat) in
  let st' := tick_post clk rnd st in
  is_occupied st' = occupied /\
  outdoor_temp st' = outdoor /\
  ahu_mixed_air_temp st' = mixed /\
  ahu_cooling_valve st' = valve /\
  ahu_supply_air_temp st' = mixed - valve * 0.3 /\
  ahu_return_air_temp st'
  = py_sum (vav_zone_temps st) / INR (length (vav_zone_temps st)) /\
  ahu_fan_speed st' = fan /\
  ahu_supply_air_flow st' = fan * 160.
Proof.
  cbv zeta. unfold tick_post.
  pose proof (late_stages_frame (fun k => rnd (3 + k)%nat) (rnd 9%nat) (rnd 10%nat)
                (rnd 11%nat)
                (ahu_post (rnd 2%nat)
                   (outdoor_temp_post (clk 1%nat) (rnd 1%nat)
                      (occupancy_post (clk 0%nat) (rnd 0%nat) st)))) as F.
  cbv zeta in F.
  destruct F as (-> & -> & -> & -> & -> & -> & -> & -> & _).
  exact (ahu_stage_fields clk rnd st).
Qed.

(** X1.  After every tick the outdoor temperature lies within 75 +- 17: the
    daily sine swings by 15 and the noise adds at most 2. *)
Theorem outdoor_temp_bounded (s : Sim) :
  six_zones (state s) -> random_ok s ->
  exists s', update s = (Ok tt, s') /\ 58 <= outdoor_temp (state s') <= 92.
Proof.
  intros Hz Hrnd. eexists; split; [apply update_run, Hz |].
  change (state (with_state ?x ?y)) with x.
  destruct (tick_post_ahu_fields (clock s) (random_source s) (state s))
    as (_ & -> & _).
  pose proof (SIN_bound (IZR (hour (clock s 1%nat) - 6) * PI / 12)) as [Hlo Hhi].
  pose proof (Hrnd 1%nat). lra.
Qed.

Lemma outdoor_temp_bounded_witness :
  exists s', update noon_process = (Ok tt, s') /\ 58 <= outdoor_temp (state s') <= 92.
Proof. exact (outdoor_temp_bounded noon_process six_zones_init noon_random_ok). Defined.

(** X2.  After every tick the fan speed is within 75 +- 5 when the building
    is occupied and within 40 +- 5 when it is not, and the supply air flow is
    the fan speed times 160. *)
Theorem fan_speed_follows_occupancy (s : Sim) :
  six_zones (state s) -> random_ok s ->
  exists s', update s = (Ok tt, s') /\
    (is_occupied (state s') = true -> 70 <= ahu_fan_speed (state s') <= 80) /\
    (is_occupied (state s') = false -> 35 <= ahu_fan_speed (state s') <= 45) /\
    ahu_supply_air_flow (state s') = ahu_fan_speed (state s') * 160.
Proof.
  intros Hz Hrnd. eexists; split; [apply update_run, Hz |].
  change (state (with_state ?x ?y)) with x.
  destruct (tick_post_ahu_fields (clock s) (random_source s) (state s))
    as (-> & _ & _ & _ & _ & _ & -> & ->).
  pose proof (Hrnd 2%nat).
  split; [intros E; rewrite E; lra | split; [intros E; rewrite E; lra | reflexivity]].
Qed.

Lemma fan_speed_follows_occupancy_witness :
  exists s', update noon_process = (Ok tt, s') /\
    (is_occupied (state s') = true -> 70 <= ahu_fan_speed (state s') <= 80) /\
    (is_occupied (state s') = false -> 35 <= ahu_fan_speed (state s') <= 45) /\
    ahu_supply_air_flow (state s') = ahu_fan_speed (state s') * 160.
Proof. exact (fan_speed_follows_occupancy noon_process six_zones_init noon_random_ok). Defined.

(** X3.  After every tick the supply air is the mixed air cooled by 0.3
    degrees per percent of valve opening, at most 30 degrees. *)
Theorem supply_air_cooling (s : Sim) :
  six_zones (state s) ->
  exists s', update s = (Ok tt, s') /\
    ahu_supply_air_temp (state s')
    = ahu_mixed_air_temp (state s') - ahu_cooling_valve (state s') * 0.3 /\
    ahu_mixed_air_temp (state s') - 30 <= ahu_supply_air_temp (state s')
    <= ahu_mixed_air_temp (state s').
Proof.
  intros Hz. eexists; split; [apply update_run, Hz |].
  change (state (with_state ?x ?y)) with x.
  destruct (tick_post_ahu_fields (clock s) (random_source s) (state s))
    as (_ & _ & -> & -> & -> & _).
  split; [reflexivity |].
  match goal with |- context [Rmax 0 (Rmin 100 ?x)] =>
    destruct (in_range_clamp 0 100 x ltac:(lra)) as [H0 H1] end.
  lra.
Qed.

Lemma supply_air_cooling_witness :
  exists s', update noon_process = (Ok tt, s') /\
    ahu_supply_air_temp (state s')
    = ahu_mixed_air_temp (state s') - ahu_cooling_valve (state s') * 0.3 /\
    ahu_mixed_air_temp (state s') - 30 <= ahu_supply_air_temp (state s')
    <= ahu_mixed_air_temp (state s').
Proof. exact (supply_air_cooling noon_process six_zones_init). Defined.

(** X4.  The return air temperature of a tick is the mean of the six zone
    temperatures as they were before the tick: [update_ahu] runs before
    [update_vavs]. *)
Theorem return_air_is_previous_mean (s : Sim) :
  six_zones (state s) ->
  exists s', update s = (Ok tt, s') /\
    ahu_return_air_temp (state s') = py_sum (vav_zone_temps (state s)) / 6.
Proof.
  intros Hz. eexists; split; [apply update_run, Hz |].
  change (state (with_state ?x ?y)) with x.
  destruct (tick_post_ahu_fields (clock s) (random_source s) (state s))
    as (_ & _ & _ & _ & _ & -> & _).
  destruct Hz as (-> & _). simpl INR. f_equal. lra.
Qed.

Lemma return_air_is_previous_mean_witness :
  exists s', update noon_process = (Ok tt, s') /\
    ahu_return_air_temp (state s') = py_sum (vav_zone_temps (state noon_process)) / 6.
Proof. exact (return_air_is_previous_mean noon_process six_zones_init). Defined.

(** X5.  The mixed air temperature of a tick blends the return air
    temperature of the state before the tick (the return air is recomputed
    only later in the tick) with the outdoor temperature and the occupancy of
    the tick itself: the share of outdoor air is 20 percent when occupied
    and 10 percent when not. *)
Theorem mixed_air_is_a_blend (s : Sim) :
  six_zones (state s) ->
  exists s', update s = (Ok tt, s') /\
    let outdoor_damper := if is_occupied (state s') then 20 else 10 in
    ahu_mixed_air_temp (state s')
    = ahu_return_air_temp (state s) * (100 - outdoor_damper) / 100
      + outdoor_temp (state s') * outdoor_damper / 100.
Proof.
  intros Hz. eexists; split; [apply update_run, Hz |].
  change (state (with_state ?x ?y)) with x. cbv zeta.
  destruct (tick_post_ahu_fields (clock s) (random_source s) (state s))
    as (-> & -> & -> & _).
  reflexivity.
Qed.

Lemma mixed_air_is_a_blend_witness :
  exists s', update noon_process = (Ok tt, s') /\
    let outdoor_damper := if is_occupied (state s') then 20 else 10 in
    ahu_mixed_air_temp (state s')
    = ahu_return_air_temp (state noon_process) * (100 - outdoor_damper) / 100
      + outdoor_temp (state s') * outdoor_damper / 100.
Proof. exact (mixed_air_is_a_blend noon_process six_zones_init). Defined.

(** The chiller and power stages leave the five zone lists alone, and so do
    the stages before the zone loop. *)
Lemma late_lists_frame (u9 u10 u11 : R) (st4 : BuildingState) :
  let st' := power_post u11 (chiller_post u9 u10 st4) in
  vav_zone_temps st' = vav_zone_temps st4 /\
  vav_zone_setpoints st' = vav_zone_setpoints st4 /\
  vav_damper_positions st' = vav_damper_positions st4 /\
  vav_airflows st' = vav_airflows st4 /\
  vav_reheat_valves st' = vav_reheat_valves st4 /\
  ahu_cooling_valve st' = ahu_cooling_valve st4 /\
  chilled_water_supply_temp st'
  = (if Rltb 50 (ahu_cooling_valve st4 * 100) then 42 else 44) + (-1 + (1 - -1) * u9) /\
  chilled_water_return_temp st'
  = (if Rltb 50 (ahu_cooling_valve st4 * 100) then 52 else 54) + (-1 + (1 - -1) * u10).
Proof.
  cbv zeta. unfold chiller_post. destruct (Rltb 50 _); repeat split.
Qed.

Lemma early_lists_frame (clk : nat -> datetime) (rnd : nat -> R) (st : BuildingState) :
  let st3 := ahu_post (rnd 2%nat)
               (outdoor_temp_post (clk 1%nat) (rnd 1%nat)
                  (occupancy_post (clk 0%nat) (rnd 0%nat) st)) in
  vav_zone_temps st3 = vav_zone_temps st /\
  vav_zone_setpoints st3 = vav_zone_setpoints st /\
  vav_damper_positions st3 = vav_damper_positions st /\
  vav_airflows st3 = vav_airflows st /\
  vav_reheat_valves st3 = vav_reheat_valves st /\
  ahu_supply_air_setpoint st3 = ahu_supply_air_setpoint st /\
  ahu_heating_valve st3 = ahu_heating_valve st /\
  hot_water_supply_temp st3 = hot_water_supply_temp st /\
  hot_water_return_temp st3 = hot_water_return_temp st /\
  total_energy st3 = total_energy st.
Proof. cbv zeta. repeat split. Qed.

(** X6.  After every tick the chilled water supply and return temperatures
    sit within 42 +- 1 and 52 +- 1 when the cooling valve is open by more
    than 0.5 percent, and within 44 +- 1 and 54 +- 1 otherwise. *)
Theorem chilled_water_bands (s : Sim) :
  six_zones (state s) -> random_ok s ->
  exists s', update s = (Ok tt, s') /\
    (0.5 < ahu_cooling_valve (state s') ->
     41 <= chilled_water_supply_temp (state s') <= 43 /\
     51 <= chilled_water_return_temp (state s') <= 53) /\
    (ahu_cooling_valve (state s') <= 0.5 ->
     43 <= chilled_water_supply_temp (state s') <= 45 /\
     53 <= chilled_water_return_temp (state s') <= 55).
Proof.
  intros Hz Hrnd. eexists; split; [apply update_run, Hz |].
  change (state (with_state ?x ?y)) with x. unfold tick_post.
  match goal with |- context [power_post ?u11 (chiller_post ?u9 ?u10 ?st4)] =>
    destruct (late_lists_frame u9 u10 u11 st4) as (_ & _ & _ & _ & _ & -> & -> & ->);
    generalize (ahu_cooling_valve st4) end.
  intros valve. pose proof (Hrnd 9%nat). pose proof (Hrnd 10%nat).
  split; intros Hv.
  - rewrite Rltb_true by lra. lra.
  - rewrite Rltb_false by lra. lra.
Qed.

Lemma chilled_water_bands_witness :
  exists s', update noon_process = (Ok tt, s') /\
    (0.5 < ahu_cooling_valve (state s') ->
     41 <= chilled_water_supply_temp (state s') <= 43 /\
     51 <= chilled_water_return_temp (state s') <= 53) /\
    (ahu_cooling_valve (state s') <= 0.5 ->
     43 <= chilled_water_supply_temp (state s') <= 45 /\
     53 <= chilled_water_return_temp (state s') <= 55).
Proof. exact (chilled_water_bands noon_process six_zones_init noon_random_ok). Defined.

Lemma fold_left_Rplus_ub (l : list R) (a : R) :
  Forall (in_range 0 100) l -> fold_left Rplus l a <= a + 100 * INR (length l).
Proof.
  intros H; revert a; induction H as [|x t [_ Hx] _ IH]; intros a.
  - simpl. lra.
  - cbn [fold_left length]. rewrite S_INR. specialize (IH (a + x)). lra.
Qed.

Lemma tick_post_energy_eq (clk : nat -> datetime) (rnd : nat -> R) (st : BuildingState) :
  total_energy (tick_post clk rnd st)
  = total_energy st + total_power (tick_post clk rnd st) * (5 / 3600).
Proof.
  unfold tick_post.
  match goal with |- context [power_post ?u11 ?st5] =>
    change (total_energy (power_post u11 st5))
      with (total_energy st5 + total_power (power_post u11 st5) * (INTERVAL / 3600));
    generalize (total_power (power_post u11 st5)) end.
  intros power.
  rewrite (proj1 (chiller_post_frame _ _ _)), (proj1 (vavs_post_frame _ _)).
  destruct (early_lists_frame clk rnd st) as (_ & _ & _ & _ & _ & _ & _ & _ & _ & ->).
  reflexivity.
Qed.

(** X7.  On a reachable state, a tick leaves a total power between 8 and
    155 kW and adds exactly total_power * 5/3600 to the cumulative energy,
    which therefore increases strictly. *)
Theorem total_power_bounded (s : Sim) :
  reachable s -> random_ok s ->
  exists s', update s = (Ok tt, s') /\
    8 < total_power (state s') < 155 /\
    total_energy (state s') = total_energy (state s) + total_power (state s') * (5 / 3600) /\
    total_energy (state s) < total_energy (state s').
Proof.
  intros Hreach Hrnd. destruct (reachable_invariant s Hreach) as [Hz Ha].
  eexists; split; [apply update_run, Hz |].
  change (state (with_state ?x ?y)) with x.
  assert (Hp : 8 < total_power (tick_post (clock s) (random_source s) (state s)) < 155).
  { rewrite tick_post_power.
    destruct (actuators_tick_post (clock s) (random_source s) _ Ha) as (_ & [Hv0 Hv1] & Hr).
    pose proof (six_zones_tick_post (clock s) (random_source s) _ Hz)
      as (_ & _ & _ & _ & Hlen).
    pose proof (py_sum_nonneg _ Hr) as Hs0.
    pose proof (fold_left_Rplus_ub _ 0 Hr) as Hs1. fold (py_sum (vav_reheat_valves
      (tick_post (clock s) (random_source s) (state s)))) in Hs1.
    rewrite Hlen in Hs1. simpl INR in Hs1.
    destruct (tick_post_ahu_fields (clock s) (random_source s) (state s))
      as (_ & _ & _ & _ & _ & _ & Hfan & _).
    pose proof (Hrnd 2%nat) as Hu2. pose proof (Hrnd 11%nat) as Hu11.
    set (st' := tick_post (clock s) (random_source s) (state s)) in *.
    assert (Hf : 35 <= ahu_fan_speed st' <= 80)
      by (rewrite Hfan; destruct (is_occupied _); lra).
    assert (Hc0 : (35 / 100) ^ 3 <= (ahu_fan_speed st' / 100) ^ 3)
      by (apply pow_incr; lra).
    assert (Hc1 : (ahu_fan_speed st' / 100) ^ 3 <= (80 / 100) ^ 3)
      by (apply pow_incr; lra).
    unfold chiller_power, reheat_power.
    set (cube := (ahu_fan_speed st' / 100) ^ 3) in *.
    set (sum := py_sum (vav_reheat_valves st')) in *.
    set (valve := ahu_cooling_valve st') in *.
    destruct (is_occupied st'); simpl in Hc0, Hc1; lra. }
  split; [exact Hp |]. rewrite tick_post_energy_eq. split; [reflexivity | lra].
Qed.

Lemma total_power_bounded_witness :
  exists s', update noon_process_1 = (Ok tt, s') /\
    8 < total_power (state s') < 155 /\
    total_energy (state s')
    = total_energy (state noon_process_1) + total_power (state s') * (5 / 3600) /\
    total_energy (state noon_process_1) < total_energy (state s').
Proof.
  apply total_power_bounded.
  - exact noon_process_1_reachable.
  - intros n; change (0 <= 1 / 2 < 1); lra.
Defined.

Lemma tick_post_untouched (clk : nat -> datetime) (rnd : nat -> R) (st : BuildingState) :
  ahu_supply_air_setpoint (tick_post clk rnd st) = ahu_supply_air_setpoint st /\
  ahu_heating_valve (tick_post clk rnd st) = ahu_heating_valve st /\
  hot_water_supply_temp (tick_post clk rnd st) = hot_water_supply_temp st /\
  hot_water_return_temp (tick_post clk rnd st) = hot_water_return_temp st.
Proof.
  unfold tick_post.
  match goal with |- context [power_post ?u11 (chiller_post ?u9 ?u10 (vavs_post ?us ?st3))] =>
    destruct (late_stages_frame us u9 u10 u11 st3)
      as (_ & _ & _ & _ & _ & _ & _ & _ & -> & -> & -> & ->) end.
  destruct (early_lists_frame clk rnd st) as (_ & _ & _ & _ & _ & -> & -> & -> & -> & _).
  repeat split.
Qed.

(** X8.  The heating side is never simulated: in every reachable state the
    heating valve is 0 and the hot water supply and return temperatures are
    180 and 160, their defaults. *)
Theorem heating_is_never_updated (s : Sim) :
  reachable s ->
  ahu_heating_valve (state s) = 0 /\
  hot_water_supply_temp (state s) = 180 /\
  hot_water_return_temp (state s) = 160.
Proof.
  intros Hreach.
  assert (Hz : forall s, reachable s -> six_zones (state s))
    by (intros s0 H0; apply (reachable_invariant s0 H0)).
  induction Hreach as [s E | s s' Hreach IH Hrun].
  - rewrite E. repeat split.
  - rewrite (update_run s (Hz s Hreach)) in Hrun. injection Hrun as <-.
    change (state (with_state ?x ?y)) with x.
    destruct (tick_post_untouched (clock s) (random_source s) (state s))
      as (_ & -> & -> & ->).
    exact IH.
Qed.

Lemma heating_is_never_updated_witness :
  ahu_heating_valve (state noon_process_1) = 0 /\
  hot_water_supply_temp (state noon_process_1) = 180 /\
  hot_water_return_temp (state noon_process_1) = 160.
Proof. exact (heating_is_never_updated noon_process_1 noon_process_1_reachable). Defined.

(** X9.  [update] only reads the commandable setpoints: it leaves the
    supply-air setpoint and the six zone setpoints as they are, and it does
    not touch the point objects, the registry, the profile or the log. *)
Theorem update_keeps_setpoints_and_points (s : Sim) :
  six_zones (state s) ->
  exists s', update s = (Ok tt, s') /\
    ahu_supply_air_setpoint (state s') = ahu_supply_air_setpoint (state s) /\
    vav_zone_setpoints (state s') = vav_zone_setpoints (state s) /\
    objects s' = objects s /\ app_objects s' = app_objects s /\
    profile s' = profile s /\ equipment_type s' = equipment_type s /\
    log s' = log s /\ sleeps s' = sleeps s.
Proof.
  intros Hz. eexists; split; [apply update_run, Hz |].
  change (state (with_state ?x ?y)) with x.
  split; [apply tick_post_untouched |].
  split; [apply tick_post_zone_lists |].
  repeat split.
Qed.

Lemma update_keeps_setpoints_and_points_witness :
  exists s', update ahu_simulator = (Ok tt, s') /\
    ahu_supply_air_setpoint (state s') = ahu_supply_air_setpoint (state ahu_simulator) /\
    vav_zone_setpoints (state s') = vav_zone_setpoints (state ahu_simulator) /\
    objects s' = objects ahu_simulator /\ app_objects s' = app_objects ahu_simulator /\
    profile s' = profile ahu_simulator /\
    equipment_type s' = equipment_type ahu_simulator /\
    log s' = log ahu_simulator /\ sleeps s' = sleeps ahu_simulator.
Proof. exact (update_keeps_setpoints_and_points ahu_simulator six_zones_init). Defined.

(** The damper and the airflow that the zone loop leaves in slot [k]. *)
Lemma zone_post_dampers_other (j k : nat) (u : R) (st : BuildingState) :
  j <> k ->
  nth j (vav_damper_positions (zone_post k u st)) 0 = nth j (vav_damper_positions st) 0.
Proof. intros H. exact (nth_list_update_neq _ _ _ _ _ H). Qed.

Lemma zone_post_airflows_other (j k : nat) (u : R) (st : BuildingState) :
  j <> k -> nth j (vav_airflows (zone_post k u st)) 0 = nth j (vav_airflows st) 0.
Proof. intros H. exact (nth_list_update_neq _ _ _ _ _ H). Qed.

Lemma zone_post_dampers_own (k : nat) (u : R) (st : BuildingState) :
  six_zones st -> (k < 6)%nat ->
  nth k (vav_damper_positions (zone_post k u st)) 0
  = Rmax 20 (Rmin 100 (nth k (vav_damper_positions st) 0
      + (nth k (vav_zone_temps st) 0 - nth k (vav_zone_setpoints st) 0) * 3)).
Proof.
  intros (_ & _ & Hd & _) Hk.
  change (vav_damper_positions (zone_post k u st))
    with (list_update (vav_damper_positions st) k
            (Rmax 20 (Rmin 100 (nth k (vav_damper_positions st) 0
               + (nth k (vav_zone_temps st) 0 - nth k (vav_zone_setpoints st) 0) * 3)))).
  now rewrite nth_list_update_eq by lia.
Qed.

Lemma zone_post_airflows_own (k : nat) (u : R) (st : BuildingState) :
  six_zones st -> (k < 6)%nat ->
  nth k (vav_airflows (zone_post k u st)) 0
  = nth k (vav_damper_positions (zone_post k u st)) 0 * 30.
Proof.
  intros Hz Hk. rewrite zone_post_dampers_own by assumption.
  destruct Hz as (_ & _ & _ & Hf & _).
  change (vav_airflows (zone_post k u st))
    with (list_update (vav_airflows st) k
            (Rmax 20 (Rmin 100 (nth k (vav_damper_positions st) 0
               + (nth k (vav_zone_temps st) 0 - nth k (vav_zone_setpoints st) 0) * 3))
             * 30)).
  now rewrite nth_list_update_eq by lia.
Qed.

Lemma vavs_post_dampers (us : nat -> R) (st : BuildingState) (k : nat) :
  six_zones st -> (k < 6)%nat ->
  nth k (vav_damper_positions (vavs_post us st)) 0
  = Rmax 20 (Rmin 100 (nth k (vav_damper_positions st) 0
      + (nth k (vav_zone_temps st) 0 - nth k (vav_zone_setpoints st) 0) * 3)) /\
  nth k (vav_airflows (vavs_post us st)) 0
  = nth k (vav_damper_positions (vavs_post us st)) 0 * 30.
Proof.
  intros Hz Hk. unfold vavs_post, seq, fold_left.
  destruct k as [|[|[|[|[|[|k]]]]]]; try lia;
    rewrite ?zone_post_dampers_other, ?zone_post_airflows_other by lia;
    (rewrite zone_post_airflows_own; [| now repeat apply six_zones_zone_post | lia]);
    (rewrite zone_post_dampers_own; [| now repeat apply six_zones_zone_post | lia]);
    rewrite ?zone_post_setpoints;
    rewrite ?zone_post_dampers_other, ?zone_post_temps_other by lia;
    split; reflexivity.
Qed.

(** X10.  After every tick the airflow of each zone is 30 times its damper
    position, hence between 600 and 3000 CFM. *)
Theorem airflow_follows_damper (s : Sim) (k : nat) :
  six_zones (state s) -> (k < 6)%nat ->
  exists s', update s = (Ok tt, s') /\
    nth k (vav_airflows (state s')) 0 = nth k (vav_damper_positions (state s')) 0 * 30 /\
    600 <= nth k (vav_airflows (state s')) 0 <= 3000.
Proof.
  intros Hz Hk. eexists; split; [apply update_run, Hz |].
  change (state (with_state ?x ?y)) with x. unfold tick_post.
  match goal with |- context [power_post ?u11 (chiller_post ?u9 ?u10 ?st4)] =>
    destruct (late_lists_frame u9 u10 u11 st4) as (_ & _ & -> & -> & _) end.
  match goal with |- context [vavs_post ?us ?st3] =>
    destruct (vavs_post_dampers us st3 k) as [Hd Hf];
      [apply six_zones_ahu_post, six_zones_outdoor_temp_post,
         six_zones_occupancy_post, Hz | exact Hk |] end.
  split; [exact Hf |]. rewrite Hf, Hd.
  match goal with |- context [Rmax 20 (Rmin 100 ?x)] =>
    destruct (in_range_clamp 20 100 x ltac:(lra)) as [H0 H1] end.
  lra.
Qed.

Lemma airflow_follows_damper_witness :
  exists s', update noon_process = (Ok tt, s') /\
    nth 2 (vav_airflows (state s')) 0 = nth 2 (vav_damper_positions (state s')) 0 * 30 /\
    600 <= nth 2 (vav_airflows (state s')) 0 <= 3000.
Proof. apply airflow_follows_damper; [exact six_zones_init | lia]. Defined.

(** X11.  The two integrating controllers move in the direction of the
    error.  On a reachable state, a zone warmer than its setpoint does not
    close its damper and a cooler one does not open it; supply air warmer
    than its setpoint does not close the cooling valve and cooler supply air
    does not open it. *)
Theorem controllers_follow_error (s : Sim) (k : nat) :
  reachable s -> (k < 6)%nat ->
  exists s', update s = (Ok tt, s') /\
    (nth k (vav_zone_setpoints (state s)) 0 <= nth k (vav_zone_temps (state s)) 0 ->
     nth k (vav_damper_positions (state s)) 0
     <= nth k (vav_damper_positions (state s')) 0) /\
    (nth k (vav_zone_temps (state s)) 0 <= nth k (vav_zone_setpoints (state s)) 0 ->
     nth k (vav_damper_positions (state s')) 0
     <= nth k (vav_damper_positions (state s)) 0) /\
    (ahu_supply_air_setpoint (state s) <= ahu_supply_air_temp (state s) ->
     ahu_cooling_valve (state s) <= ahu_cooling_valve (state s')) /\
    (ahu_supply_air_temp (state s) <= ahu_supply_air_setpoint (state s) ->
     ahu_cooling_valve (state s') <= ahu_cooling_valve (state s)).
Proof.
  intros Hreach Hk. destruct (reachable_invariant s Hreach) as [Hz (Hd & Hv & _)].
  eexists; split; [apply update_run, Hz |].
  change (state (with_state ?x ?y)) with x.
  destruct (tick_post_ahu_fields (clock s) (random_source s) (state s))
    as (_ & _ & _ & -> & _).
  unfold tick_post.
  match goal with |- context [power_post ?u11 (chiller_post ?u9 ?u10 ?st4)] =>
    destruct (late_lists_frame u9 u10 u11 st4) as (_ & _ & -> & _) end.
  match goal with |- context [vavs_post ?us ?st3] =>
    destruct (vavs_post_dampers us st3 k) as [-> _];
      [apply six_zones_ahu_post, six_zones_outdoor_temp_post,
         six_zones_occupancy_post, Hz | exact Hk |] end.
  destruct (early_lists_frame (clock s) (random_source s) (state s))
    as (-> & -> & -> & _).
  assert (Hdk : in_range 20 100 (nth k (vav_damper_positions (state s)) 0)).
  { destruct Hz as (_ & _ & Hl & _). apply Forall_nth; [exact Hd | lia]. }
  destruct Hdk as [Hd0 Hd1]. destruct Hv as [Hv0 Hv1].
  unfold Rmax, Rmin.
  repeat split; intros H; repeat destruct (Rle_dec _ _); lra.
Qed.

Lemma controllers_follow_error_witness :
  exists s', update noon_process = (Ok tt, s') /\
    (nth 2 (vav_zone_setpoints (state noon_process)) 0
     <= nth 2 (vav_zone_temps (state noon_process)) 0 ->
     nth 2 (vav_damper_positions (state noon_process)) 0
     <= nth 2 (vav_damper_positions (state s')) 0) /\
    (nth 2 (vav_zone_temps (state noon_process)) 0
     <= nth 2 (vav_zone_setpoints (state noon_process)) 0 ->
     nth 2 (vav_damper_positions (state s')) 0
     <= nth 2 (vav_damper_positions (state noon_process)) 0) /\
    (ahu_supply_air_setpoint (state noon_process)
     <= ahu_supply_air_temp (state noon_process) ->
     ahu_cooling_valve (state noon_process) <= ahu_cooling_valve (state s')) /\
    (ahu_supply_air_temp (state noon_process)
     <= ahu_supply_air_setpoint (state noon_process) ->
     ahu_cooling_valve (state s') <= ahu_cooling_valve (state noon_process)).
Proof.
  apply controllers_follow_error; [apply reachable_init; reflexivity | lia].
Defined.

(** X22.  The zone temperature of a tick is an Euler step of 5/60 from the
    temperature before the tick: the heat gain is twice the load of the
    tick (0.5 occupied, 0.1 unoccupied, plus the noise of the zone, plus 0.3
    for an even zone) and the cooling uses the damper position and the
    supply air temperature that the same tick has just computed. *)
Theorem zone_temperature_step (s : Sim) (k : nat) :
  six_zones (state s) -> (k < 6)%nat ->
  exists s', update s = (Ok tt, s') /\
    let noise := -0.2 + (0.2 - -0.2) * random_source s (3 + k)%nat in
    let load := (if is_occupied (state s') then 0.5 else 0.1) + noise
                + (if Nat.even k then 0.3 else 0) in
    let zt := nth k (vav_zone_temps (state s)) 0 in
    let cooling := nth k (vav_damper_positions (state s')) 0 * 30 / 2000
                   * (zt - ahu_supply_air_temp (state s')) * 0.1 in
    nth k (vav_zone_temps (state s')) 0 = zt + (load * 2 - cooling) * (5 / 60).
Proof.
  intros Hz Hk. eexists; split; [apply update_run, Hz |].
  change (state (with_state ?x ?y)) with x. cbv zeta.
  pose proof (six_zones_ahu_post (random_source s 2%nat) _
                (six_zones_outdoor_temp_post (clock s 1%nat) (random_source s 1%nat) _
                   (six_zones_occupancy_post (clock s 0%nat) (random_source s 0%nat) _ Hz)))
    as Hz3.
  unfold tick_post.
  match goal with |- context [power_post ?u11 (chiller_post ?u9 ?u10 (vavs_post ?us ?st3))] =>
    destruct (late_stages_frame us u9 u10 u11 st3)
      as (-> & _ & _ & _ & -> & _);
    destruct (late_lists_frame u9 u10 u11 (vavs_post us st3)) as (-> & _ & -> & _);
    destruct (vavs_post_dampers us st3 k Hz3 Hk) as [-> _];
    rewrite (vavs_post_temps us st3 k Hz3 Hk)
  end.
  unfold zone_temp_post, INTERVAL. cbv zeta.
  destruct (early_lists_frame (clock s) (random_source s) (state s)) as (-> & -> & -> & _).
  assert (Ev : (Z.of_nat k mod 2 =? 0)%Z = Nat.even k).
  { destruct k as [|[|[|[|[|[|k]]]]]]; try lia; reflexivity. }
  rewrite Ev. destruct (Nat.even k); destruct (is_occupied _); lra.
Qed.

Lemma zone_temperature_step_witness :
  exists s', update noon_process = (Ok tt, s') /\
    let noise := -0.2 + (0.2 - -0.2) * random_source noon_process (3 + 1)%nat in
    let load := (if is_occupied (state s') then 0.5 else 0.1) + noise
                + (if Nat.even 1 then 0.3 else 0) in
    let zt := nth 1 (vav_zone_temps (state noon_process)) 0 in
    let cooling := nth 1 (vav_damper_positions (state s')) 0 * 30 / 2000
                   * (zt - ahu_supply_air_temp (state s')) * 0.1 in
    nth 1 (vav_zone_temps (state s')) 0 = zt + (load * 2 - cooling) * (5 / 60).
Proof. apply zone_temperature_step; [exact six_zones_init | lia]. Defined.

(** * Further properties of the profiles *)

(** X12.  After [update], the occupancy of the state follows the schedule:
    on a weekday between 8 and 18 o'clock the building is occupied when the
    first draw of the tick is below 0.95, at any other time when it is below
    0.05. *)
Theorem occupancy_follows_schedule (s : Sim) :
  six_zones (state s) ->
  exists s', update s = (Ok tt, s') /\
    let now := clock s 0%nat in
    let u := random_source s 0%nat in
    ((0 <= weekday now < 5)%Z /\ (8 <= hour now < 18)%Z ->
     (is_occupied (state s') = true <-> u < 0.95)) /\
    ((5 <= weekday now)%Z \/ (hour now < 8)%Z \/ (18 <= hour now)%Z ->
     (is_occupied (state s') = true <-> u < 0.05)).
Proof.
  intros Hz. eexists; split; [apply update_run, Hz |].
  change (state (with_state ?x ?y)) with x. cbv zeta.
  destruct (tick_post_ahu_fields (clock s) (random_source s) (state s)) as (-> & _).
  change (is_occupied (occupancy_post ?now ?u ?st))
    with (if (if (5 <=? weekday now)%Z then false
              else ((8 <=? hour now)%Z && (hour now <? 18)%Z))
          then Rltb u 0.95 else Rltb u 0.05).
  assert (HR : forall x y, Rltb x y = true <-> x < y).
  { intros x y; unfold Rltb; destruct (Rlt_dec x y); split; auto; discriminate. }
  split.
  - intros [[_ Hw] [H8 H18]].
    destruct (Z.leb_spec 5 (weekday (clock s 0%nat))); [lia |].
    destruct (Z.leb_spec 8 (hour (clock s 0%nat))); [| lia].
    destruct (Z.ltb_spec (hour (clock s 0%nat)) 18); [| lia].
    apply HR.
  - intros H.
    destruct (Z.leb_spec 5 (weekday (clock s 0%nat))); [apply HR |].
    destruct (Z.leb_spec 8 (hour (clock s 0%nat)));
      destruct (Z.ltb_spec (hour (clock s 0%nat)) 18); try apply HR; lia.
Qed.

Lemma occupancy_follows_schedule_witness :
  exists s', update noon_process = (Ok tt, s') /\
    let now := clock noon_process 0%nat in
    let u := random_source noon_process 0%nat in
    ((0 <= weekday now < 5)%Z /\ (8 <= hour now < 18)%Z ->
     (is_occupied (state s') = true <-> u < 0.95)) /\
    ((5 <= weekday now)%Z \/ (hour now < 8)%Z \/ (18 <= hour now)%Z ->
     (is_occupied (state s') = true <-> u < 0.05)).
Proof. exact (occupancy_follows_schedule noon_process six_zones_init). Defined.

(** What a zone profile leaves in the points that it alone decides. *)
Lemma VAV_update_objects_points (s : Sim) (k : nat) (sp : R) :
  (k < 6)%nat -> six_zones (state s) ->
  length (objects s) = 6%nat ->
  option_map presentValue (nth_error (objects s) 1) = Some (Real sp) ->
  exists s', VAVProfile.update_objects (Z.of_nat k) s = (Ok tt, s') /\
    option_map presentValue (nth_error (objects s') 0)
    = Some (Real (nth k (vav_zone_temps (state s)) 0)) /\
    nth_error (objects s') 1 = nth_error (objects s) 1 /\
    option_map presentValue (nth_error (objects s') 3)
    = Some (Real (nth k (vav_airflows (state s)) 0)) /\
    option_map presentValue (nth_error (objects s') 5)
    = Some (Binary (is_occupied (state s))).
Proof.
  intros Hk (Ht & Hs & Hd & Hf & Hr) Hlen H1.
  destruct s as [app st et pr objs rs clk lg sl]. simpl in *.
  explicit_list objs Hlen. simpl in H1. injection H1 as H1.
  eexists. split.
  { unfold VAVProfile.update_objects.
    run_with getitem_run.
    do 2 erewrite bind_run by reflexivity.
    cbv beta. rewrite H1.
    erewrite bind_run by reflexivity.
    run_with setitem_run.
    run_with getitem_run. erewrite bind_run by reflexivity.
    run_with getitem_run. erewrite bind_run by reflexivity.
    run_with getitem_run. erewrite bind_run by reflexivity.
    erewrite bind_run by reflexivity.
    reflexivity. }
  simpl. repeat split.
Qed.

(** X13.  After a zone profile has synchronised its six points, the three
    sensor points show the zone temperature, the airflow and the occupancy
    of the state, and the setpoint point is left as it was.  The damper and
    reheat points are commandable outputs: the profile assigns them the
    damper position and the reheat valve, and what they show then is for the
    point library to decide. *)
Theorem vav_sensor_points_mirror_state (s : Sim) (zone_index floor : Z)
    (zone_name : string) (sp : R) :
  (0 <= zone_index < 6)%Z -> six_zones (state s) ->
  length (objects s) = 6%nat ->
  option_map presentValue (nth_error (objects s) 1) = Some (Real sp) ->
  exists s', update_objects (VAV zone_index floor zone_name) s = (Ok tt, s') /\
    let k := Z.to_nat zone_index in
    option_map presentValue (nth_error (objects s') 0)
    = Some (Real (nth k (vav_zone_temps (state s)) 0)) /\
    nth_error (objects s') 1 = nth_error (objects s) 1 /\
    option_map presentValue (nth_error (objects s') 3)
    = Some (Real (nth k (vav_airflows (state s)) 0)) /\
    option_map presentValue (nth_error (objects s') 5)
    = Some (Binary (is_occupied (state s))).
Proof.
  intros Hzi Hz Hlen H1. cbv zeta.
  assert (Hk : (Z.to_nat zone_index < 6)%nat) by lia.
  destruct (VAV_update_objects_points s (Z.to_nat zone_index) sp Hk Hz Hlen H1)
    as (s' & Hrun & Hpts).
  rewrite Z2Nat.id in Hrun by lia.
  exists s'; split; assumption.
Qed.

Lemma vav_sensor_points_mirror_state_witness :
  exists s', update_objects (VAV 3 2 "South") vav3_simulator = (Ok tt, s') /\
    let k := Z.to_nat 3 in
    option_map presentValue (nth_error (objects s') 0)
    = Some (Real (nth k (vav_zone_temps (state vav3_simulator)) 0)) /\
    nth_error (objects s') 1 = nth_error (objects vav3_simulator) 1 /\
    option_map presentValue (nth_error (objects s') 3)
    = Some (Real (nth k (vav_airflows (state vav3_simulator)) 0)) /\
    option_map presentValue (nth_error (objects s') 5)
    = Some (Binary (is_occupied (state vav3_simulator))).
Proof.
  apply (vav_sensor_points_mirror_state vav3_simulator 3 2 "South" 72).
  - lia.
  - exact six_zones_init.
  - reflexivity.
  - reflexivity.
Defined.

(** X14.  The chiller profile refreshes its two temperature points and
    leaves the status and enable points as they are; the meter profile
    shows total power and energy and a voltage within 480 +- 5.  Neither
    changes BuildingState. *)
Theorem chiller_and_meter_points (s : Sim) :
  (length (objects s) = 4%nat ->
   exists s', update_objects Chiller s = (Ok tt, s') /\
     state s' = state s /\
     option_map presentValue (nth_error (objects s') 0)
     = Some (Real (chilled_water_supply_temp (state s))) /\
     option_map presentValue (nth_error (objects s') 1)
     = Some (Real (chilled_water_return_temp (state s))) /\
     nth_error (objects s') 2 = nth_error (objects s) 2 /\
     nth_error (objects s') 3 = nth_error (objects s) 3) /\
  (length (objects s) = 3%nat -> random_ok s ->
   exists s' volts, update_objects Meter s = (Ok tt, s') /\
     state s' = state s /\
     map presentValue (objects s')
     = [Real (total_power (state s)); Real (total_energy (state s)); Real volts] /\
     475 <= volts <= 485).
Proof.
  split.
  - intros Hlen.
    destruct s as [app st et pr objs rs clk lg sl]. simpl in *.
    explicit_list objs Hlen.
    eexists. split; [reflexivity | repeat split].
  - intros Hlen Hrnd. specialize (Hrnd 0%nat).
    destruct s as [app st et pr objs rs clk lg sl]. simpl in *.
    explicit_list objs Hlen.
    eexists. exists (480 + (-5 + (5 - -5) * rs 0%nat)).
    split; [reflexivity | repeat split; simpl; lra].
Qed.

Lemma chiller_and_meter_points_witness :
  (exists s', update_objects Chiller chiller_simulator = (Ok tt, s') /\
     state s' = state chiller_simulator /\
     option_map presentValue (nth_error (objects s') 0)
     = Some (Real (chilled_water_supply_temp (state chiller_simulator))) /\
     option_map presentValue (nth_error (objects s') 1)
     = Some (Real (chilled_water_return_temp (state chiller_simulator))) /\
     nth_error (objects s') 2 = nth_error (objects chiller_simulator) 2 /\
     nth_error (objects s') 3 = nth_error (objects chiller_simulator) 3) /\
  (exists s' volts, update_objects Meter meter_simulator = (Ok tt, s') /\
     state s' = state meter_simulator /\
     map presentValue (objects s')
     = [Real (total_power (state meter_simulator));
        Real (total_energy (state meter_simulator)); Real volts] /\
     475 <= volts <= 485).
Proof.
  split.
  - apply (proj1 (chiller_and_meter_points chiller_simulator)). reflexivity.
  - apply (proj2 (chiller_and_meter_points meter_simulator)).
    + reflexivity.
    + intros n; change (0 <= 1 / 2 < 1); lra.
Defined.

(** ** Creation of the points *)

Lemma list_update_nth_error_same {A : Type} (l : list A) (k : nat) (v : A) :
  nth_error l k = Some v -> list_update l k v = l.
Proof.
  revert k; induction l as [|h t IH]; intros [|k] H; simpl in *; try discriminate.
  - now injection H as ->.
  - now rewrite IH.
Qed.

(** Storing back the value just read at the same index changes nothing. *)
Lemma list_setitem_getitem_same {A : Type} (l : list A) (i : Z) (v : A) :
  list_getitem l i = Some v -> list_setitem l i v = Some l.
Proof.
  unfold list_getitem, list_setitem.
  destruct (py_index (length l) i) as [k|]; [| discriminate].
  intros H. now rewrite list_update_nth_error_same.
Qed.

(** What [VAVProfile.create_objects] returns when it returns. *)
Lemma VAV_create_objects_inv (z f : Z) (n : string) (s s1 : Sim) (objs : list BACnetObject) :
  VAVProfile.create_objects z f n s = (Ok objs, s1) ->
  s1 = s /\
  exists zt zsp damper flow reheat,
    list_getitem (vav_zone_temps (state s)) z = Some zt /\
    list_getitem (vav_zone_setpoints (state s)) z = Some zsp /\
    list_getitem (vav_damper_positions (state s)) z = Some damper /\
    list_getitem (vav_airflows (state s)) z = Some flow /\
    list_getitem (vav_reheat_valves (state s)) z = Some reheat /\
    map presentValue objs
    = [Real zt; Real zsp; Real damper; Real flow; Real reheat;
       Binary (is_occupied (state s))] /\
    map objectIdentifier objs
    = [(analogInput, z * 10 + 1); (analogValue, z * 10 + 1); (analogOutput, z * 10 + 1);
       (analogInput, z * 10 + 2); (analogOutput, z * 10 + 2);
       (binaryInput, z * 10 + 1)]%Z.
Proof.
  unfold VAVProfile.create_objects, getitem, bind, gets, ret, raise.
  destruct (list_getitem (vav_zone_temps (state s)) z) as [zt|]; [| discriminate].
  destruct (list_getitem (vav_zone_setpoints (state s)) z) as [zsp|]; [| discriminate].
  destruct (list_getitem (vav_damper_positions (state s)) z) as [d|]; [| discriminate].
  destruct (list_getitem (vav_airflows (state s)) z) as [fl|]; [| discriminate].
  destruct (list_getitem (vav_reheat_valves (state s)) z) as [r|]; [| discriminate].
  intros H. injection H as <- <-. split; [reflexivity |].
  exists zt, zsp, d, fl, r. repeat split.
Qed.

(** X15.  A synchronisation that follows the creation of the points at
    once changes neither BuildingState nor the points, for the AHU, a zone
    and the chiller.  (The meter redraws its voltage.) *)
Theorem sync_after_create_is_identity (p : Profile) (s s1 : Sim)
    (objs : list BACnetObject) :
  p <> Meter ->
  create_objects p s = (Ok objs, s1) ->
  s1 = s /\
  update_objects p (with_objects objs s) = (Ok tt, with_objects objs s).
Proof.
  intros Hp Hc. destruct p as [| z f n | |]; [| | | congruence].
  - (* AHU *)
    injection Hc as <- <-. split; [reflexivity |].
    destruct s as [app st et pr objs rs clk lg sl]. destruct st. reflexivity.
  - (* VAV *)
    destruct (VAV_create_objects_inv z f n s s1 objs Hc)
      as (-> & zt & zsp & d & fl & r & Ht & Hs & Hd & Hf & Hr & Hpv & Hid).
    split; [reflexivity |].
    simpl in Hc. unfold VAVProfile.create_objects, getitem, bind, gets, ret in Hc.
    rewrite Ht, Hs, Hd, Hf, Hr in Hc. injection Hc as <-.
    simpl. unfold VAVProfile.update_objects.
    assert (G : forall field v (w : Sim), list_getitem (field (state w)) z = Some v ->
                getitem field z w = (Ok v, w)).
    { intros field v w E. unfold getitem, bind, gets. now rewrite E. }
    erewrite bind_run by (apply G; exact Ht).
    do 3 erewrite bind_run by reflexivity.
    erewrite bind_run.
    2:{ unfold setitem, bind, gets. cbn [state with_objects modify_sim].
        rewrite (list_setitem_getitem_same _ _ _ Hs). reflexivity. }
    erewrite bind_run by (apply G; exact Hd).
    erewrite bind_run by reflexivity.
    erewrite bind_run by (apply G; exact Hf).
    erewrite bind_run by reflexivity.
    erewrite bind_run by (apply G; exact Hr).
    erewrite bind_run by reflexivity.
    erewrite bind_run by reflexivity.
    destruct s as [app st et pr objs rs clk lg sl]. destruct st. reflexivity.
  - (* Chiller *)
    injection Hc as <- <-. split; [reflexivity |].
    destruct s as [app st et pr objs rs clk lg sl]. destruct st. reflexivity.
Qed.

Lemma sync_after_create_is_identity_witness :
  exists objs,
    create_objects (VAV 3 2 "South") noon_process = (Ok objs, noon_process) /\
    update_objects (VAV 3 2 "South") (with_objects objs noon_process)
    = (Ok tt, with_objects objs noon_process).
Proof.
  eexists. split; [reflexivity |].
  refine (proj2 (sync_after_create_is_identity (VAV 3 2 "South") noon_process
                   noon_process _ _ eq_refl)).
  discriminate.
Defined.

Lemma oid_in_six (a b c d e f x : ObjectIdentifier) :
  In x [a; b; c; d; e; f] -> x = a \/ x = b \/ x = c \/ x = d \/ x = e \/ x = f.
Proof. simpl. intuition. Qed.

(** X16.  Within a profile no two points share an identifier, and the
    points of two different zones have no identifier in common.  The
    identifiers of zone 0 are, however, all used by the AHU as well, while
    the chiller and the meter use identifiers of their own. *)
Theorem point_identifiers (s : Sim) :
  (forall p objs s1, create_objects p s = (Ok objs, s1) ->
     NoDup (map objectIdentifier objs)) /\
  (forall i fi ni j fj nj objs_i objs_j s1 s2,
     i <> j ->
     create_objects (VAV i fi ni) s = (Ok objs_i, s1) ->
     create_objects (VAV j fj nj) s = (Ok objs_j, s2) ->
     forall oid, In oid (map objectIdentifier objs_i) ->
                 ~ In oid (map objectIdentifier objs_j)) /\
  (forall f n objs_0 objs_ahu s1 s2,
     create_objects (VAV 0 f n) s = (Ok objs_0, s1) ->
     create_objects AHU s = (Ok objs_ahu, s2) ->
     incl (map objectIdentifier objs_0) (map objectIdentifier objs_ahu)).
Proof.
  split; [| split].
  - intros p objs s1 Hc. destruct p as [| z f n | |].
    + injection Hc as <- _. simpl.
      repeat (constructor; [simpl; intuition discriminate |]). constructor.
    + destruct (VAV_create_objects_inv z f n s s1 objs Hc)
        as (_ & zt & zsp & d & fl & r & _ & _ & _ & _ & _ & _ & ->).
      repeat (constructor;
              [simpl; intros H;
               repeat (destruct H as [H | H];
                       [injection H; intros; try discriminate; lia |]);
               exact H |]).
      constructor.
    + injection Hc as <- _. simpl.
      repeat (constructor; [simpl; intuition discriminate |]). constructor.
    + injection Hc as <- _. simpl.
      repeat (constructor; [simpl; intuition discriminate |]). constructor.
  - intros i fi ni j fj nj objs_i objs_j s1 s2 Hij Hi Hj oid Hin Hin'.
    destruct (VAV_create_objects_inv i fi ni s s1 objs_i Hi)
      as (_ & ? & ? & ? & ? & ? & _ & _ & _ & _ & _ & _ & Ei).
    destruct (VAV_create_objects_inv j fj nj s s2 objs_j Hj)
      as (_ & ? & ? & ? & ? & ? & _ & _ & _ & _ & _ & _ & Ej).
    rewrite Ei in Hin. rewrite Ej in Hin'.
    apply oid_in_six in Hin. apply oid_in_six in Hin'.
    destruct Hin as [-> | [-> | [-> | [-> | [-> | ->]]]]];
      destruct Hin' as [H | [H | [H | [H | [H | H]]]]];
      injection H; intros; try discriminate; lia.
  - intros f n objs_0 objs_ahu s1 s2 H0 Ha.
    destruct (VAV_create_objects_inv 0 f n s s1 objs_0 H0)
      as (_ & ? & ? & ? & ? & ? & _ & _ & _ & _ & _ & _ & ->).
    injection Ha as <- _. simpl.
    intros oid Hin. simpl in Hin. simpl. intuition.
Qed.

Lemma point_identifiers_witness :
  ~ In (analogInput, 31%Z)
       (map objectIdentifier
          (match VAVProfile.create_objects 4 3 "North" noon_process with
           | (Ok objs, _) => objs
           | (Raise _, _) => []
           end)).
Proof.
  refine (proj1 (proj2 (point_identifiers noon_process)) 3%Z 2%Z "South"%string
            4%Z 3%Z "North"%string (objects vav3_simulator) _ noon_process noon_process
            _ eq_refl eq_refl (analogInput, 31%Z) _).
  - discriminate.
  - left. reflexivity.
Defined.

(** ** Construction of the simulator *)

(** X17.  A selector that is none of ["ahu"], ["chiller"], ["meter"] and
    does not start with ["vav"] makes the constructor raise ValueError
    before a profile is chosen: no point is created or registered. *)
Theorem unknown_selector_is_rejected (e : string) (s : Sim) :
  String.eqb e "ahu" = false -> startswith "vav" e = false ->
  String.eqb e "chiller" = false -> String.eqb e "meter" = false ->
  exists s',
    BuildingSimulator_init e s
    = (Raise (ValueError ("Unknown equipment type: " ++ e)%string), s') /\
    profile s' = profile s /\ objects s' = [] /\ app_objects s' = [] /\
    log s' = log s.
Proof.
  intros H1 H2 H3 H4. eexists. split.
  - apply init_unknown_selector; assumption.
  - repeat split.
Qed.

Lemma unknown_selector_is_rejected_witness :
  exists s',
    BuildingSimulator_init "furnace" noon_process
    = (Raise (ValueError ("Unknown equipment type: " ++ "furnace")%string), s') /\
    profile s' = profile noon_process /\ objects s' = [] /\ app_objects s' = [] /\
    log s' = log noon_process.
Proof. apply unknown_selector_is_rejected; reflexivity. Defined.











(** ** The running loop *)

Section LoopFrame.

Variable rel : Sim -> Sim -> Prop.
Hypothesis rel_refl : forall s, rel s s.
Hypothesis rel_trans : forall a b c, rel a b -> rel b c -> rel a c.
Hypothesis rel_log : forall s l, rel s (with_log l s).
Hypothesis rel_sleeps : forall s n, rel s (with_sleeps n s).
Hypothesis rel_random : forall s,
  rel s (with_random_source (fun n => random_source s (S n)) s).
Hypothesis rel_present_value : forall s k v o,
  nth_error (objects s) k = Some o ->
  rel s (with_objects (list_update (objects s) k (set_presentValue v o)) s).
Hypothesis rel_ahu_setpoint : forall s v,
  rel s (with_state (set_ahu_supply_air_setpoint v (state s)) s).
Hypothesis rel_zone_setpoint : forall s k v,
  rel s (with_state
           (set_vav_zone_setpoints (list_update (vav_zone_setpoints (state s)) k v)
              (state s)) s).
Hypothesis rel_tick : forall s,
  six_zones (state s) ->
  rel s (with_state (tick_post (clock s) (random_source s) (state s)) (advance 12 2 s)).

Lemma sframe_bind {A B : Type} (m : M A) (f : A -> M B) :
  sim_frame rel m -> (forall a, sim_frame rel (f a)) -> sim_frame rel (bind m f).
Proof.
  intros Hm Hf s. unfold bind. specialize (Hm s).
  destruct (m s) as [[a|e] s1]; simpl in *.
  - eapply rel_trans; [exact Hm | apply Hf].
  - exact Hm.
Qed.

Lemma sframe_ret {A : Type} (a : A) : sim_frame rel (ret a).
Proof. intros s; apply rel_refl. Qed.

Lemma sframe_raise {A : Type} (e : exn) : sim_frame rel (@raise A e).
Proof. intros s; apply rel_refl. Qed.

Lemma sframe_gets {A : Type} (f : BuildingState -> A) : sim_frame rel (gets f).
Proof. intros s; apply rel_refl. Qed.

Lemma sframe_get_sim {A : Type} (f : Sim -> A) : sim_frame rel (get_sim f).
Proof. intros s; apply rel_refl. Qed.

Lemma sframe_getitem (field : BuildingState -> list R) (i : Z) :
  sim_frame rel (getitem field i).
Proof.
  intros s. unfold getitem, bind, gets.
  destruct (list_getitem (field (state s)) i); apply rel_refl.
Qed.

Lemma sframe_get_presentValue (k : Z) : sim_frame rel (get_presentValue k).
Proof.
  intros s. unfold get_presentValue, bind, get_sim.
  destruct (list_getitem (objects s) k); apply rel_refl.
Qed.

Lemma sframe_put_presentValue (k : Z) (v : PropertyValue) :
  sim_frame rel (put_presentValue k v).
Proof.
  intros s. unfold put_presentValue, bind, get_sim, list_getitem, list_setitem.
  destruct (py_index (length (objects s)) k) as [n|]; [| apply rel_refl].
  destruct (nth_error (objects s) n) as [o|] eqn:E; [| apply rel_refl].
  apply rel_present_value, E.
Qed.

Lemma sframe_as_float (v : PropertyValue) : sim_frame rel (as_float v).
Proof. intros s; destruct v; apply rel_refl. Qed.

Lemma sframe_random_uniform (a b : R) : sim_frame rel (random_uniform a b).
Proof. intros s. apply rel_random. Qed.

Lemma sframe_assign_ahu_setpoint (v : R) :
  sim_frame rel (assign set_ahu_supply_air_setpoint v).
Proof. intros s. apply rel_ahu_setpoint. Qed.

Lemma sframe_setitem_zone_setpoint (z : Z) (v : R) :
  sim_frame rel (setitem vav_zone_setpoints set_vav_zone_setpoints z v).
Proof.
  intros s. unfold setitem, bind, gets, list_setitem.
  destruct (py_index (length (vav_zone_setpoints (state s))) z) as [k|].
  - apply rel_zone_setpoint.
  - apply rel_refl.
Qed.

Lemma sframe_int (x : string) : sim_frame rel (int x).
Proof. intros s. unfold int. destruct (int_of_str x); apply rel_refl. Qed.

Lemma sframe_logger (r : LogRecord) : sim_frame rel (logger r).
Proof. intros s. apply rel_log. Qed.

Lemma sframe_get_profile : sim_frame rel get_profile.
Proof.
  intros s. unfold get_profile, bind, get_sim. destruct (profile s); apply rel_refl.
Qed.

(** One step through a computation built from the primitives above. *)
Ltac sframe_step :=
  lazymatch goal with
  | |- sim_frame _ (bind _ _) => apply sframe_bind; [| intros ?]
  | |- sim_frame _ (ret _) => apply sframe_ret
  | |- sim_frame _ (gets _) => apply sframe_gets
  | |- sim_frame _ (get_sim _) => apply sframe_get_sim
  | |- sim_frame _ (getitem _ _) => apply sframe_getitem
  | |- sim_frame _ (put_presentValue _ _) => apply sframe_put_presentValue
  | |- sim_frame _ (get_presentValue _) => apply sframe_get_presentValue
  | |- sim_frame _ (as_float _) => apply sframe_as_float
  | |- sim_frame _ (random_uniform _ _) => apply sframe_random_uniform
  | |- sim_frame _ (int _) => apply sframe_int
  | |- sim_frame _ (logger _) => apply sframe_logger
  | |- sim_frame _ (assign set_ahu_supply_air_setpoint _) =>
      apply sframe_assign_ahu_setpoint
  | |- sim_frame _ (setitem vav_zone_setpoints set_vav_zone_setpoints _ _) =>
      apply sframe_setitem_zone_setpoint
  | |- sim_frame _ (if ?b then _ else _) => destruct b
  end.

Lemma sframe_update_objects (p : Profile) : sim_frame rel (update_objects p).
Proof.
  destruct p as [| z f n | |]; simpl.
  - unfold AHUProfile.update_objects. repeat sframe_step.
  - unfold VAVProfile.update_objects. repeat sframe_step.
  - unfold ChillerProfile.update_objects. repeat sframe_step.
  - unfold MeterProfile.update_objects. repeat sframe_step.
Qed.

Lemma sframe_log_status : sim_frame rel log_status.
Proof. unfold log_status. repeat sframe_step. Qed.

(** An iteration of the loop, whatever its block does. *)
Lemma iteration_frame (s s' : Sim) (r : result unit) :
  six_zones (state s) -> update_loop_iteration s = (r, s') -> rel s s'.
Proof.
  intros Hz Hit.
  pose proof (update_run s Hz) as Hrun.
  set (s1 := with_state _ _) in Hrun.
  assert (Hrest : sim_frame rel (p <- get_profile ;; update_objects p ;; log_status)).
  { apply sframe_bind; [apply sframe_get_profile | intros p].
    apply sframe_bind; [apply sframe_update_objects | intros _].
    apply sframe_log_status. }
  specialize (Hrest s1).
  unfold update_loop_iteration, try_except, update_loop_body in Hit.
  unfold bind at 1 in Hit. rewrite (bind_run _ _ _ _ _ Hrun) in Hit.
  destruct ((p <- get_profile ;; update_objects p ;; log_status) s1) as [[[]|e] s2].
  - injection Hit as _ <-. simpl in Hrest.
    eapply rel_trans; [apply rel_tick, Hz |].
    eapply rel_trans; [exact Hrest | apply rel_sleeps].
  - injection Hit as _ <-. simpl in Hrest.
    eapply rel_trans; [apply rel_tick, Hz |].
    eapply rel_trans; [exact Hrest |].
    eapply rel_trans; [apply rel_log | apply rel_sleeps].
Qed.

End LoopFrame.

Lemma external_write_state (k : nat) (v : PropertyValue) (s : Sim) :
  state (external_write k v s) = state s /\
  random_source (external_write k v s) = random_source s.
Proof. unfold external_write. destruct (nth_error (objects s) k); split; reflexivity. Qed.

Lemma map_descriptor_list_update (l : list BACnetObject) (k : nat) (v : PropertyValue)
    (o : BACnetObject) :
  nth_error l k = Some o ->
  map point_descriptor (list_update l k (set_presentValue v o)) = map point_descriptor l.
Proof.
  revert k; induction l as [|h t IH]; intros [|k] H; simpl in *; try discriminate.
  - now injection H as ->.
  - now rewrite IH.
Qed.

Lemma keeps_ranges_iteration (s s' : Sim) (r : result unit) :
  six_zones (state s) -> update_loop_iteration s = (r, s') -> keeps_ranges s s'.
Proof.
  apply (iteration_frame keeps_ranges).
  - intros x Hz. split; [exact Hz | exact (fun H => H)].
  - intros a b c Hab Hbc Hz. destruct (Hab Hz) as [Hzb Hb].
    destruct (Hbc Hzb) as [Hzc Hc]. split; [exact Hzc | auto].
  - intros x l Hz. split; [exact Hz | exact (fun H => H)].
  - intros x n Hz. split; [exact Hz | exact (fun H => H)].
  - intros x Hz. split; [exact Hz | exact (fun H => H)].
  - intros x k v o _ Hz. split; [exact Hz | exact (fun H => H)].
  - intros x v Hz. split; [exact Hz | exact (fun H => H)].
  - intros x k v (Ht & Hs & Hd & Hf & Hr). split; [| exact (fun H => H)].
    repeat split; try assumption.
    change (length (list_update (vav_zone_setpoints (state x)) k v) = 6%nat).
    now rewrite length_list_update.
  - intros x Hz _. split.
    + apply six_zones_tick_post, Hz.
    + apply actuators_tick_post.
Qed.

(** X19.  The invariant of the actuators holds along the whole run of a
    simulator, not only along ticks: through iterations whose block raises,
    through the synchronisation of any profile with any list of points, and
    through writes of any value into any point. *)
Theorem running_keeps_ranges (s0 s : Sim) :
  six_zones (state s0) -> actuators_in_range (state s0) ->
  running s0 s ->
  six_zones (state s) /\ actuators_in_range (state s).
Proof.
  intros Hz0 Ha0 Hrun. induction Hrun as [| s r s' _ [Hz Ha] Hit | s k v _ IH].
  - split; assumption.
  - destruct (keeps_ranges_iteration s s' r Hz Hit Hz) as [Hz' Ha']. auto.
  - now rewrite (proj1 (external_write_state k v s)).
Qed.

Lemma running_keeps_ranges_witness :
  let s1 := external_write 5 (Binary false) ahu_simulator in
  let s2 := snd (update_loop_iteration s1) in
  six_zones (state s2) /\ actuators_in_range (state s2).
Proof.
  cbv zeta.
  apply (running_keeps_ranges ahu_simulator).
  - exact six_zones_init.
  - exact actuators_init.
  - eapply running_iteration.
    + apply running_write, running_start.
    + apply surjective_pairing.
Defined.

Lemma keeps_points_iteration (s s' : Sim) (r : result unit) :
  six_zones (state s) -> update_loop_iteration s = (r, s') -> keeps_points s s'.
Proof.
  apply (iteration_frame keeps_points).
  - intros x. repeat split.
  - intros a b c (H1 & H2 & H3 & H4) (G1 & G2 & G3 & G4).
    repeat split; congruence.
  - intros x l. repeat split.
  - intros x n. repeat split.
  - intros x. repeat split.
  - intros x k v o E. split; [| repeat split].
    exact (map_descriptor_list_update _ _ _ _ E).
  - intros x v. repeat split.
  - intros x k v. repeat split.
  - intros x _. repeat split.
Qed.

Lemma running_six_zones (s0 s : Sim) :
  six_zones (state s0) -> running s0 s -> six_zones (state s).
Proof.
  intros Hz0 Hrun. induction Hrun as [| s r s' _ Hz Hit | s k v _ IH].
  - assumption.
  - exact (proj1 (keeps_ranges_iteration s s' r Hz Hit Hz)).
  - now rewrite (proj1 (external_write_state k v s)).
Qed.

(** X20.  The shape of a profile is fixed: along the whole run the points
    keep their number, order, identifiers, names, units and descriptions,
    and the registry, the profile and the selector do not change; only
    present values do. *)
Theorem running_keeps_points (s0 s : Sim) :
  six_zones (state s0) -> running s0 s ->
  map point_descriptor (objects s) = map point_descriptor (objects s0) /\
  app_objects s = app_objects s0 /\
  profile s = profile s0 /\
  equipment_type s = equipment_type s0.
Proof.
  intros Hz0 Hrun.
  change (keeps_points s0 s).
  induction Hrun as [| s r s' Hrun IH Hit | s k v Hrun IH].
  - repeat split.
  - pose proof (keeps_points_iteration s s' r (running_six_zones s0 s Hz0 Hrun) Hit)
      as (G1 & G2 & G3 & G4).
    destruct IH as (H1 & H2 & H3 & H4). repeat split; congruence.
  - destruct IH as (H1 & H2 & H3 & H4). unfold external_write.
    destruct (nth_error (objects s) k) as [o|] eqn:E; [| repeat split; assumption].
    split; [| repeat split; assumption].
    change (objects (with_objects ?l ?x)) with l.
    now rewrite (map_descriptor_list_update _ _ _ _ E).
Qed.

Lemma running_keeps_points_witness :
  let s1 := external_write 5 (Binary false) ahu_simulator in
  let s2 := snd (update_loop_iteration s1) in
  map point_descriptor (objects s2) = map point_descriptor (objects ahu_simulator) /\
  app_objects s2 = app_objects ahu_simulator /\
  profile s2 = profile ahu_simulator /\
  equipment_type s2 = equipment_type ahu_simulator.
Proof.
  cbv zeta.
  apply (running_keeps_points ahu_simulator).
  - exact six_zones_init.
  - eapply running_iteration.
    + apply running_write, running_start.
    + apply surjective_pairing.
Defined.

Lemma keeps_energy_iteration (s s' : Sim) (r : result unit) :
  six_zones (state s) -> update_loop_iteration s = (r, s') -> keeps_energy s s'.
Proof.
  assert (Hsame : forall x y : Sim,
            state y = state x -> random_source y = random_source x ->
            keeps_energy x y).
  { intros x y Es Er (Hz & Ha & Hr). rewrite Es. unfold random_ok. rewrite Er.
    split; [exact Hz | split; [exact Ha | split; [exact Hr | apply Rle_refl]]]. }
  apply (iteration_frame keeps_energy).
  - intros x. now apply Hsame.
  - intros a b c Hab Hbc Ha. destruct (Hab Ha) as (Hzb & Hab' & Hrb & Hle).
    destruct (Hbc (conj Hzb (conj Hab' Hrb))) as (Hzc & Hac & Hrc & Hle').
    split; [exact Hzc | split; [exact Hac | split; [exact Hrc | lra]]].
  - intros x l. now apply Hsame.
  - intros x n. now apply Hsame.
  - intros x (Hz & Ha & Hr).
    split; [exact Hz | split; [exact Ha | split; [| apply Rle_refl]]].
    intros n. apply (Hr (S n)).
  - intros x k v o _. now apply Hsame.
  - intros x v (Hz & Ha & Hr).
    split; [exact Hz | split; [exact Ha | split; [exact Hr | apply Rle_refl]]].
  - intros x k v ((Ht & Hs & Hd & Hf & Hrl) & Ha & Hr).
    split; [| split; [exact Ha | split; [exact Hr | apply Rle_refl]]].
    repeat split; try assumption.
    change (length (list_update (vav_zone_setpoints (state x)) k v) = 6%nat).
    now rewrite length_list_update.
  - intros x Hz (_ & Ha & Hr).
    split; [apply six_zones_tick_post, Hz |].
    split; [apply actuators_tick_post, Ha |].
    split; [intros n; apply (Hr (12 + n)%nat) |].
    apply tick_post_energy; assumption.
Qed.

(** X21.  Cumulative energy never decreases along the whole run of a
    simulator whose random generator returns values in [0, 1): neither a
    failed iteration nor a synchronisation nor a write lowers it. *)
Theorem running_energy_non_decreasing (s0 s : Sim) :
  six_zones (state s0) -> actuators_in_range (state s0) -> random_ok s0 ->
  running s0 s ->
  total_energy (state s0) <= total_energy (state s).
Proof.
  intros Hz0 Ha0 Hr0 Hrun.
  assert (H : six_zones (state s) /\ actuators_in_range (state s) /\ random_ok s /\
              total_energy (state s0) <= total_energy (state s)).
  { induction Hrun as [| s r s' _ (Hz & Ha & Hr & Hle) Hit
                        | s k v _ (Hz & Ha & Hr & Hle)].
    - split; [exact Hz0 | split; [exact Ha0 | split; [exact Hr0 | apply Rle_refl]]].
    - destruct (keeps_energy_iteration s s' r Hz Hit (conj Hz (conj Ha Hr)))
        as (Hz' & Ha' & Hr' & Hle').
      split; [exact Hz' | split; [exact Ha' | split; [exact Hr' | lra]]].
    - destruct (external_write_state k v s) as [Es Er].
      rewrite Es. unfold random_ok. rewrite Er.
      split; [exact Hz | split; [exact Ha | split; [exact Hr | exact Hle]]]. }
  apply H.
Qed.

Lemma running_energy_non_decreasing_witness :
  let s1 := external_write 5 (Binary false) ahu_simulator in
  let s2 := snd (update_loop_iteration s1) in
  total_energy (state ahu_simulator) <= total_energy (state s2).
Proof.
  cbv zeta.
  apply (running_energy_non_decreasing ahu_simulator).
  - exact six_zones_init.
  - exact actuators_init.
  - intros n; change (0 <= 1 / 2 < 1); lra.
  - eapply running_iteration.
    + apply running_write, running_start.
    + apply surjective_pairing.
Defined.
